(** * Join-request admission for QQ groups: [core/join_handle.py]

    A shallow embedding of the two classes of [join_handle.py]:
    [GroupJoinData], the per-group rule store kept in memory and written
    through to a JSON file, and [JoinHandle], whose [should_approve] decides a
    join request and whose [event_monitoring] routes the platform's events.

    Python objects are embedded as follows.
    - [str] is [string]; non-ASCII literals are carried as their UTF-8 bytes.
    - [dict] is stdpp's [gmap]; [d.get(k, v)] is [default v (d !! k)].
    - the fields of a group's config are dynamically typed: [value] has the
      three shapes the setters write ([bool], [int], [list[str]]), and an
      operation applied to the wrong shape raises, as it does in Python.
    - [set] is [gset]; Python leaves the iteration order of a set open and
      nothing below depends on the order [elements] picks.
    - a method that only reads is a function of the object; a method that
      mutates returns the new object; code that can raise lives in [St]
      (state and exceptions) and code that awaits the platform in [M]. *)

From stdpp Require Import base option gmap strings list pretty.
From Stdlib Require Import ZArith Ascii String.

Open Scope string_scope.
Open Scope Z_scope.

(** ** Python values and exceptions *)

Inductive exn : Type :=
| TypeError
| ValueError
| AttributeError
| KeyError
| ActionFailed.

Inductive res (A : Type) : Type :=
| Ok (a : A)
| Raise (e : exn).
Arguments Ok {A} a.
Arguments Raise {A} e.

(** What a field of a group's config can hold. *)
Inductive value : Type :=
| VBool (b : bool)
| VInt (n : Z)
| VList (l : list string).

#[global] Instance value_eq_dec : EqDecision value.
Proof. solve_decision. Defined.

#[global] Instance exn_eq_dec : EqDecision exn.
Proof. solve_decision. Defined.

(** The methods of [str] and the builtins the module calls.  They belong to
    the Python runtime, not to this repository, so the development is
    parametric in them; [ascii_runtime] below is the instance used to run
    examples. *)
Class Runtime : Type := {
  (** [s.lower()] *)
  str_lower : string -> string;
  (** [s.isdigit()] *)
  str_isdigit : string -> bool;
  (** [s.strip().split()] *)
  str_split : string -> list string;
  (** [int(s)] *)
  int_of_str : string -> res Z;
  (** [repr(l)] for a list of [str], as an f-string prints it *)
  repr_list : list string -> string;
  (** [template.format(nickname=n)] *)
  str_format : string -> string -> res string
}.

(** The character written [\n] in a Python literal. *)
Definition newline : string := String (ascii_of_nat 10) EmptyString.

(** [p] is a prefix of [s]: [s.startswith(p)]. *)
Fixpoint starts_with (p s : string) : bool :=
  match p, s with
  | EmptyString, _ => true
  | String _ _, EmptyString => false
  | String a p', String b s' => if Ascii.eqb a b then starts_with p' s' else false
  end.

(** [sub in s] on two [str]. *)
Fixpoint str_in (sub s : string) : bool :=
  starts_with sub s ||
  match s with
  | EmptyString => false
  | String _ s' => str_in sub s'
  end.

(** [s.removeprefix(p)] *)
Fixpoint removeprefix_aux (p s : string) : option string :=
  match p, s with
  | EmptyString, _ => Some s
  | String _ _, EmptyString => None
  | String a p', String b s' => if Ascii.eqb a b then removeprefix_aux p' s' else None
  end.

Definition removeprefix (p s : string) : string :=
  default s (removeprefix_aux p s).

(** Truth value of an object: [bool(v)]. *)
Definition truthy (v : value) : bool :=
  match v with
  | VBool b => b
  | VInt n => negb (n =? 0)
  | VList l => negb (bool_decide (l = []))
  end.

(** [bool(comment)] for [comment: str | None]. *)
Definition truthy_str (s : option string) : bool :=
  match s with
  | None => false
  | Some c => negb (bool_decide (c = ""))
  end.

(** [bool(user_level)] for [user_level: int | None]. *)
Definition truthy_int (n : option Z) : bool :=
  match n with
  | None => false
  | Some k => negb (k =? 0)
  end.

Definition rbind {A B} (r : res A) (k : A -> res B) : res B :=
  match r with
  | Ok a => k a
  | Raise e => Raise e
  end.

Notation "'let?' x ':=' r 'in' k" := (rbind r (fun x => k))
  (at level 10, x pattern, r at level 100, k at level 200).

(** The integer a number stands for in a comparison; [bool] is a subclass
    of [int], a list is not ordered against an [int]. *)
Definition as_int (v : value) : res Z :=
  match v with
  | VBool b => Ok (Z.b2z b)
  | VInt n => Ok n
  | VList _ => Raise TypeError
  end.

(** [v > k] for an [int] literal [k]. *)
Definition py_gt (v : value) (k : Z) : res bool :=
  match as_int v with
  | Ok n => Ok (k <? n)
  | Raise e => Raise e
  end.

(** [k < v] and [k > v] for an [int] [k]. *)
Definition int_lt (k : Z) (v : value) : res bool :=
  match as_int v with
  | Ok n => Ok (k <? n)
  | Raise e => Raise e
  end.

Definition int_gt (k : Z) (v : value) : res bool :=
  match as_int v with
  | Ok n => Ok (n <? k)
  | Raise e => Raise e
  end.

(** [level < v] for [level: int | None]: [None] is not ordered. *)
Definition level_lt (level : option Z) (v : value) : res bool :=
  match level with
  | Some k => int_lt k v
  | None => Raise TypeError
  end.

(** [f"{level}"] for [level: int | None]. *)
Definition level_str (level : option Z) : string :=
  match level with
  | Some k => pretty k
  | None => "None"
  end.

(** [comment.lower()] for [comment: str | None]. *)
Definition comment_lower `{Runtime} (comment : option string) : res string :=
  match comment with
  | Some c => Ok (str_lower c)
  | None => Raise AttributeError
  end.

(** [x in v] for a [str] [x]: membership in a list, [TypeError] on a number. *)
Definition py_in (x : string) (v : value) : res bool :=
  match v with
  | VList l => Ok (bool_decide (x ∈ l))
  | _ => Raise TypeError
  end.

(** [iter(v)] *)
Definition py_iter (v : value) : res (list string) :=
  match v with
  | VList l => Ok l
  | _ => Raise TypeError
  end.

(** [set(v)] *)
Definition py_set (v : value) : res (gset string) :=
  match v with
  | VList l => Ok (list_to_set l)
  | _ => Raise TypeError
  end.

(** [v + l] for a list [l]. *)
Definition py_add_list (v : value) (l : list string) : res value :=
  match v with
  | VList l0 => Ok (VList (l0 ++ l))
  | _ => Raise TypeError
  end.

(** How an f-string prints a value: [f"{v}"]. *)
Definition py_str `{Runtime} (v : value) : string :=
  match v with
  | VBool b => if b then "True" else "False"
  | VInt n => pretty n
  | VList l => repr_list l
  end.

(** [any(k.lower() in lower_comment for k in kws)] *)
Definition any_keyword `{Runtime} (kws : list string) (lower_comment : string) : bool :=
  existsb (fun k => str_in (str_lower k) lower_comment) kws.

(** ** An ASCII runtime, to run examples *)

Definition ascii_lower (c : ascii) : ascii :=
  let n := nat_of_ascii c in
  if ((65 <=? n) && (n <=? 90))%nat then ascii_of_nat (n + 32) else c.

Fixpoint map_string (f : ascii -> ascii) (s : string) : string :=
  match s with
  | EmptyString => EmptyString
  | String c s' => String (f c) (map_string f s')
  end.

Definition is_digit (c : ascii) : bool :=
  let n := nat_of_ascii c in ((48 <=? n) && (n <=? 57))%nat.

Fixpoint all_digits (s : string) : bool :=
  match s with
  | EmptyString => true
  | String c s' => is_digit c && all_digits s'
  end.

Fixpoint digits_value (acc : Z) (s : string) : Z :=
  match s with
  | EmptyString => acc
  | String c s' => digits_value (10 * acc + Z.of_nat (nat_of_ascii c - 48)) s'
  end.

Fixpoint split_spaces (cur : string) (s : string) : list string :=
  let flush := if bool_decide (cur = "") then [] else [cur] in
  match s with
  | EmptyString => flush
  | String c s' =>
      if Ascii.eqb c " "%char then flush ++ split_spaces "" s'
      else split_spaces (cur +:+ String c "") s'
  end.

Fixpoint fill_nickname (skip : nat) (template nickname : string) : string :=
  match template with
  | EmptyString => EmptyString
  | String c t' =>
      match skip with
      | S k => fill_nickname k t' nickname
      | O =>
          if starts_with "{nickname}" template
          then nickname +:+ fill_nickname 9 t' nickname
          else String c (fill_nickname 0 t' nickname)
      end
  end.

(** Exact on ASCII text without underscores, signs or surrounding blanks in
    numerals and with [{nickname}] as the only replacement field. *)
Definition ascii_runtime : Runtime := {|
  str_lower := map_string ascii_lower;
  str_isdigit s := negb (bool_decide (s = "")) && all_digits s;
  str_split := split_spaces "";
  int_of_str s :=
    if negb (bool_decide (s = "")) && all_digits s
    then Ok (digits_value 0 s) else Raise ValueError;
  repr_list l := "[" +:+ String.concat ", " (List.map (fun s => "'" +:+ s +:+ "'") l) +:+ "]";
  str_format template nickname := Ok (fill_nickname 0 template nickname)
|}.

(** ** The plugin's configuration, [config["join_config"]] *)

Record join_config : Type := {
  default_switch : bool;
  default_min_level : Z;
  default_max_time : Z;
  admin_audit : bool;
  leave_notify : bool;
  leave_block : bool;
  welcome_template : string;
  ban_time : Z
}.

(** ** class GroupJoinData *)

(** One group's config is a [dict] from field names to values. *)
Abbreviation config := (gmap string value).

(** The JSON file at [self.path]: absent, unreadable, or holding a mapping
    from group ids to configs. *)
Inductive json_file : Type :=
| Missing
| Corrupt
| Stored (data : gmap string config).

(** What happens when [save] writes the file.  [Written]: [open("w")] and
    [json.dump] both succeed.  [NotOpened]: [mkdir] or [open] raises, and
    the file stays as it was.  [Torn]: [open("w")] succeeds, which empties
    the file, and [json.dump] raises before the text is complete; what is
    left is no JSON document, so a later [json.load] fails on it. *)
Inductive write_outcome : Type :=
| Written
| NotOpened
| Torn.

Module GroupJoinData.

(** [path] is the state of the file behind [self.path]; [on_save] is what
    writing it does.  [default_cfg] is copied shallowly by [ensure_group]:
    the lists inside it are shared between groups, and no method updates a
    stored list in place. *)
Record t : Type := {
  path : json_file;
  on_save : write_outcome;
  _cfg : gmap string config;
  default_cfg : config
}.

Definition with_cfg (cfg : gmap string config) (self : t) : t :=
  {| path := path self; on_save := on_save self;
     _cfg := cfg; default_cfg := default_cfg self |}.

Definition with_path (f : json_file) (self : t) : t :=
  {| path := f; on_save := on_save self;
     _cfg := _cfg self; default_cfg := default_cfg self |}.

(** The same object when writing the file starts to behave as [w] (the
    disk fills up, the directory becomes read-only). *)
Definition with_on_save (w : write_outcome) (self : t) : t :=
  {| path := path self; on_save := w;
     _cfg := _cfg self; default_cfg := default_cfg self |}.

(** [json.dump] of [self._cfg] into the file opened for writing; any
    exception is logged and swallowed. *)
Definition save (self : t) : t :=
  match on_save self with
  | Written => with_path (Stored (_cfg self)) self
  | NotOpened => self
  | Torn => with_path Corrupt self
  end.

Definition _load (self : t) : t :=
  match path self with
  | Missing => save self
  | Stored data => with_cfg data self
  | Corrupt => save self
  end.

Definition __init__ (file : json_file) (writes : write_outcome) (config : join_config) : t :=
  let self := {| path := file; on_save := writes; _cfg := ∅; default_cfg := ∅ |} in
  let self := _load self in
  {| path := path self; on_save := on_save self; _cfg := _cfg self;
     default_cfg :=
       <["switch" := VBool (default_switch config)]>
       (<["accept_keywords" := VList []]>
       (<["reject_keywords" := VList []]>
       (<["min_level" := VInt (default_min_level config)]>
       (<["max_time" := VInt (default_max_time config)]>
       (<["block_ids" := VList []]> ∅))))) |}.

Definition ensure_group (group_id : string) (self : t) : t :=
  match _cfg self !! group_id with
  | None => save (with_cfg (<[group_id := default_cfg self]> (_cfg self)) self)
  | Some _ => self
  end.

Definition get (self : t) (group_id : string) : config :=
  default ∅ (_cfg self !! group_id).

(** [set(group_id, key=v)]: every caller passes one keyword argument. *)
Definition set (group_id key : string) (v : value) (self : t) : t :=
  let self := ensure_group group_id self in
  let cfg := default ∅ (_cfg self !! group_id) in
  save (with_cfg (<[group_id := <[key := v]> cfg]> (_cfg self)) self).

Definition remove (group_id : string) (self : t) : t :=
  save (with_cfg (delete group_id (_cfg self)) self).

Definition get_switch (self : t) (group_id : string) : value :=
  default (VBool false) (get self group_id !! "switch").

Definition get_accept_keywords (self : t) (group_id : string) : value :=
  default (VList []) (get self group_id !! "accept_keywords").

Definition get_reject_keywords (self : t) (group_id : string) : value :=
  default (VList []) (get self group_id !! "reject_keywords").

Definition get_min_level (self : t) (group_id : string) : value :=
  default (VInt 0) (get self group_id !! "min_level").

Definition get_max_time (self : t) (group_id : string) : value :=
  default (VInt 0) (get self group_id !! "max_time").

Definition get_block_ids (self : t) (group_id : string) : value :=
  default (VList []) (get self group_id !! "block_ids").

Definition set_switch (group_id : string) (on : bool) : t -> t :=
  set group_id "switch" (VBool on).

Definition set_accept_keywords (group_id : string) (kws : list string) : t -> t :=
  set group_id "accept_keywords" (VList kws).

Definition set_reject_keywords (group_id : string) (kws : list string) : t -> t :=
  set group_id "reject_keywords" (VList kws).

Definition set_min_level (group_id : string) (level : Z) : t -> t :=
  set group_id "min_level" (VInt level).

Definition set_max_time (group_id : string) (times : Z) : t -> t :=
  set group_id "max_time" (VInt times).

(** [event_monitoring] passes the result of [block_ids + [user_id]], so
    the argument is taken as a value. *)
Definition set_block_ids (group_id : string) (uids : value) : t -> t :=
  set group_id "block_ids" uids.

End GroupJoinData.

(** ** class JoinHandle: state, and the monad of its synchronous methods *)

Record JoinHandle : Type := {
  jconf : join_config;
  admin_ids : list string;
  db : GroupJoinData.t;
  _fail : gmap string Z
}.

Definition with_db (d : GroupJoinData.t) (self : JoinHandle) : JoinHandle :=
  {| jconf := jconf self; admin_ids := admin_ids self; db := d; _fail := _fail self |}.

Definition with_fail (f : gmap string Z) (self : JoinHandle) : JoinHandle :=
  {| jconf := jconf self; admin_ids := admin_ids self; db := db self; _fail := f |}.

Definition JoinHandle__init__ (config : join_config) (file : json_file)
    (writes : write_outcome) (admins : list string) : JoinHandle :=
  {| jconf := config; admin_ids := admins;
     db := GroupJoinData.__init__ file writes config; _fail := ∅ |}.

(** A computation on [self] that returns or raises; what it did to [self]
    before raising stays done. *)
Definition St (A : Type) : Type := JoinHandle -> res A * JoinHandle.

Definition ret {A} (a : A) : St A := fun self => (Ok a, self).

Definition bind {A B} (m : St A) (k : A -> St B) : St B :=
  fun self =>
    match m self with
    | (Ok a, self') => k a self'
    | (Raise e, self') => (Raise e, self')
    end.

Notation "'let*' x ':=' m 'in' k" := (bind m (fun x => k))
  (at level 10, x pattern, m at level 100, k at level 200).

(** An operation of the runtime: its result, or its exception. *)
Definition lift {A} (r : res A) : St A := fun self => (r, self).

(** [self.db.<getter>(group_id)] *)
Definition db_get {A} (getter : GroupJoinData.t -> string -> A) (group_id : string) : St A :=
  fun self => (Ok (getter (db self) group_id), self).

(** A condition evaluated on [self.db]. *)
Definition db_try {A} (test : GroupJoinData.t -> res A) : St A :=
  fun self => (test (db self), self).

(** [self.db.<setter>(...)] *)
Definition db_do (setter : GroupJoinData.t -> GroupJoinData.t) : St unit :=
  fun self => (Ok tt, with_db (setter (db self)) self).

(** [self._fail[key] = self._fail.get(key, 0) + 1], then read [self._fail[key]]. *)
Definition count_attempt (key : string) : St Z :=
  fun self =>
    let n := default 0 (_fail self !! key) + 1 in
    (Ok n, with_fail (<[key := n]> (_fail self)) self).

(** ** JoinHandle.should_approve *)

(** The condition of each rule is named, so that a statement can say that
    a rule did or did not fire. *)

(** Rule 1, 黑名单用户:
    [group_id in self.db.get(group_id) and user_id in self.db.get_block_ids(group_id)] *)
Definition blacklisted (d : GroupJoinData.t) (group_id user_id : string) : res bool :=
  if bool_decide (is_Some (GroupJoinData.get d group_id !! group_id))
  then py_in user_id (GroupJoinData.get_block_ids d group_id)
  else Ok false.

(** Rule 2, QQ等级过低:
    [min_level > 0 and user_level and user_level < min_level] *)
Definition level_too_low (min_level : value) (user_level : option Z) : res bool :=
  let? positive := py_gt min_level 0 in
  if positive && truthy_int user_level
  then level_lt user_level min_level
  else Ok false.

(** Rule 3, 命中进群黑词: [comment] is truthy and
    [any(rk.lower() in lower_comment for rk in self.db.get_reject_keywords(group_id))] *)
Definition hits_reject_keyword `{Runtime} (d : GroupJoinData.t) (group_id : string)
    (comment : option string) : res bool :=
  if truthy_str comment
  then
    let? lower_comment := comment_lower comment in
    let? kws := py_iter (GroupJoinData.get_reject_keywords d group_id) in
    Ok (any_keyword kws lower_comment)
  else Ok false.

(** Rule 5, 命中进群白词:
    [comment and group_id in self.db.get_accept_keywords(group_id) and any(...)] *)
Definition hits_accept_keyword `{Runtime} (d : GroupJoinData.t) (group_id : string)
    (comment : option string) : res bool :=
  if truthy_str comment
  then
    let? listed := py_in group_id (GroupJoinData.get_accept_keywords d group_id) in
    if listed
    then
      let? kws := py_iter (GroupJoinData.get_accept_keywords d group_id) in
      let? lower_comment := comment_lower comment in
      Ok (any_keyword kws lower_comment)
    else Ok false
  else Ok false.

(** The key of the attempt counter: [f"{group_id}_{user_id}"] *)
Definition attempt_key (group_id user_id : string) : string :=
  group_id +:+ "_" +:+ user_id.

Definition should_approve `{Runtime} (group_id user_id : string)
    (comment : option string) (user_level : option Z) : St (bool * string) :=
  (* 黑名单用户 *)
  let* blocked := db_try (fun d => blacklisted d group_id user_id) in
  if blocked then ret (false, "黑名单用户") else
  (* QQ等级过低 *)
  let* min_level := db_get GroupJoinData.get_min_level group_id in
  let* low := lift (level_too_low min_level user_level) in
  if low
  then ret (false, "QQ等级过低(" +:+ level_str user_level +:+ "<" +:+ py_str min_level +:+ ")")
  else
  (* 命中进群黑词 *)
  let* hit := db_try (fun d => hits_reject_keyword d group_id comment) in
  if hit
  then
    let* old_ids := db_get GroupJoinData.get_block_ids group_id in
    let* ids := lift (py_set old_ids) in
    let block_ids := VList (elements (ids ∪ {[user_id]})) in
    let* _ := db_do (GroupJoinData.set_block_ids group_id block_ids) in
    ret (false, "命中进群黑词")
  else
  (* 最大失败次数（考虑到只是防爆破，存内存里足矣，重启清零） *)
  let* max_fail := db_get GroupJoinData.get_max_time group_id in
  let* limited := lift (py_gt max_fail 0) in
  let* over :=
    if limited
    then
      let key := attempt_key group_id user_id in
      let* n := count_attempt key in
      lift (int_gt n max_fail)
    else ret false in
  if over
  then ret (false, "进群尝试次数已达上限(" +:+ py_str max_fail +:+ "次)")
  else
  (* 命中进群白词 *)
  let* accepted := db_try (fun d => hits_accept_keyword d group_id comment) in
  if accepted then ret (true, "验证通过") else
  (* 未包含进群关键词 *)
  ret (true, "").

(** ** The platform, and the monad of the asynchronous methods *)

(** [client.get_stranger_info] answers with a [dict]; these are the keys
    the module reads. *)
Record stranger_info : Type := {
  nickname : option string;
  qqLevel : option Z;
  level : option Z
}.

(** The awaited calls.  [send m] is [event.send(event.plain_result(m))];
    [get_nickname] is the helper of [..utils], which asks the platform. *)
Inductive call : Type :=
| send_private_msg (user_id : Z) (message : string)
| send (message : string)
| get_stranger_info (user_id : Z)
| set_group_add_request (flag sub_type : string) (approve : bool) (reason : string)
| set_group_ban (group_id user_id duration : Z)
| get_nickname (user_id : string).

Definition answer (c : call) : Type :=
  match c with
  | get_stranger_info _ => stranger_info
  | get_nickname _ => string
  | _ => unit
  end.

(** A coroutine: it is done, or it awaits a call and goes on with the
    answer, which may be an exception. *)
Inductive io (R : Type) : Type :=
| Done (r : R)
| Await (c : call) (k : res (answer c) -> io R).
Arguments Done {R} r.
Arguments Await {R} c k.

Fixpoint io_bind {R S} (p : io R) (k : R -> io S) : io S :=
  match p with
  | Done r => k r
  | Await c k' => Await c (fun a => io_bind (k' a) k)
  end.

Definition M (A : Type) : Type := JoinHandle -> io (res A * JoinHandle).

Definition mret {A} (a : A) : M A := fun self => Done (Ok a, self).

Definition mbind {A B} (m : M A) (k : A -> M B) : M B :=
  fun self =>
    io_bind (m self) (fun '(r, self') =>
      match r with
      | Ok a => k a self'
      | Raise e => Done (Raise e, self')
      end).

Notation "'let!' x ':=' m 'in' k" := (mbind m (fun x => k))
  (at level 10, x pattern, m at level 100, k at level 200).

Definition await (c : call) : M (answer c) :=
  fun self => Await c (fun a => Done (a, self)).

Definition sync {A} (m : St A) : M A := fun self => Done (m self).

(** [try: m  except Exception: pass] (or: log and go on). *)
Definition try_except (m : M unit) : M unit :=
  fun self => io_bind (m self) (fun '(_, self') => Done (Ok tt, self')).

(** The platform answers a call knowing the calls made before it. *)
Definition platform : Type := list call -> forall c : call, res (answer c).

(** Run a coroutine to the end: its result and the calls it made, oldest
    first. *)
Fixpoint run_from {R} (env : platform) (past : list call) (p : io R) : R * list call :=
  match p with
  | Done r => (r, past)
  | Await c k => run_from env (past ++ [c]) (k (env past c))
  end.

Definition run {R} (env : platform) (p : io R) : R * list call := run_from env [] p.

(** The event handed to a handler.  [raw_message] is [None] when
    [event.message_obj.raw_message] is not a [dict]; its fields are read at
    the types the method annotates ([group_id] after [str(...)],
    [user_id: str]). *)
Record AiocqhttpMessageEvent : Type := {
  raw_message : option (gmap string string);
  get_group_id : string;
  get_self_id : string;
  message_str : string
}.

(** ** JoinHandle: commands *)

(** The subject of [match mode] is any object; only a sequence (a list or a
    tuple, not a [str]) can match a pattern made of several sub-patterns. *)
#[warnings="-register-all"]
Inductive pyobj : Type :=
| PNone
| PBool (b : bool)
| PInt (n : Z)
| PStr (s : string)
| PSeq (items : list pyobj).

(** The literal pattern ["..."]: equal to that [str]. *)
Definition matches_str (lit : string) (o : pyobj) : bool :=
  match o with
  | PStr s => bool_decide (s = lit)
  | _ => false
  end.

(** The literal patterns [True] and [False]: identical to that singleton. *)
Definition matches_bool (lit : bool) (o : pyobj) : bool :=
  match o with
  | PBool b => bool_decide (b = lit)
  | _ => false
  end.

Definition _parse_mode (mode : pyobj) : option bool :=
  match mode with
  | PSeq [a; b; c; d; e; f] =>
      (* case "开", "开启", "on", "true", "1", True: *)
      if matches_str "开" a && matches_str "开启" b && matches_str "on" c &&
         matches_str "true" d && matches_str "1" e && matches_bool true f
      then Some true
      (* case "关", "关闭", "off", "false", "0", False: *)
      else if matches_str "关" a && matches_str "关闭" b && matches_str "off" c &&
              matches_str "false" d && matches_str "0" e && matches_bool false f
      then Some false
      else None
  | _ => None
  end.

(** The declared type of the argument: [mode: str | bool | None]. *)
Definition declared_mode (mode : pyobj) : bool :=
  match mode with
  | PStr _ | PBool _ | PNone => true
  | _ => false
  end.

Definition handle_join_review (event : AiocqhttpMessageEvent) (mode_str : pyobj) : M unit :=
  let gid := get_group_id event in
  let mode := _parse_mode mode_str in
  match mode with
  | Some true =>
      let! _ := sync (db_do (GroupJoinData.set_switch gid true)) in
      await (send "已开启本群进群审核")
  | Some false =>
      let! _ := sync (db_do (GroupJoinData.set_switch gid false)) in
      await (send "已关闭本群进群审核")
  | None =>
      let! switch := sync (db_get GroupJoinData.get_switch gid) in
      let status := if truthy switch then "开启" else "关闭" in
      await (send ("本群进群审核：" +:+ status))
  end.

Definition handle_reject_ids `{Runtime} (event : AiocqhttpMessageEvent) : M unit :=
  let gid := get_group_id event in
  let ids := str_split (removeprefix "进群黑名单" (message_str event)) in
  if negb (bool_decide (ids = []))
  then sync (db_do (GroupJoinData.set_block_ids gid (VList ids)))
  else
    let! ids := sync (db_get GroupJoinData.get_block_ids gid) in
    await (send ("本群的进群黑名单：" +:+ py_str ids)).

(** ** JoinHandle: events *)

Fixpoint send_to_admins `{Runtime} (ids : list string) (message : string) : M unit :=
  match ids with
  | [] => mret tt
  | admin_id :: rest =>
      let! _ :=
        if str_isdigit admin_id
        then try_except (let! uid := sync (lift (int_of_str admin_id)) in
                         await (send_private_msg uid message))
        else mret tt in
      send_to_admins rest message
  end.

Definition _send_admin `{Runtime} (message : string) : M unit :=
  fun self => send_to_admins (admin_ids self) message self.

(** [a or b] on two optional numbers and on an optional string. *)
Definition or_int (a b : option Z) : option Z :=
  if truthy_int a then a else b.

Definition or_str (a : option string) (b : string) : string :=
  match a with
  | Some s => if bool_decide (s = "") then b else s
  | None => b
  end.

Definition event_monitoring `{Runtime} (event : AiocqhttpMessageEvent) : M unit :=
  match raw_message event with
  | None => mret tt
  | Some raw =>
  let group_id := default "" (raw !! "group_id") in
  (* 进群审核总开关 *)
  let! switch := sync (db_get GroupJoinData.get_switch group_id) in
  if negb (truthy switch) then mret tt else
  let! _ := sync (db_do (GroupJoinData.ensure_group group_id)) in
  let user_id := default "" (raw !! "user_id") in
  let! conf := sync (fun self => (Ok (jconf self), self)) in
  (* 进群申请事件 *)
  if bool_decide (raw !! "post_type" = Some "request")
     && bool_decide (raw !! "request_type" = Some "group")
     && bool_decide (raw !! "sub_type" = Some "add")
  then
    let comment := raw !! "comment" in
    let flag := default "" (raw !! "flag") in
    let! uid := sync (lift (int_of_str user_id)) in
    let! info := await (get_stranger_info uid) in
    let nick := or_str (nickname info) "未知昵称" in
    let user_level := or_int (qqLevel info) (level info) in
    (* 生成并发送通知 *)
    let reply := "【进群申请】批准/驳回：" +:+ newline +:+ "昵称：" +:+ nick
                 +:+ newline +:+ "QQ：" +:+ user_id +:+ newline +:+ "flag：" +:+ flag in
    let reply :=
      match user_level with
      | Some n => reply +:+ newline +:+ "等级：" +:+ pretty n
      | None => reply
      end in
    let reply :=
      if truthy_str comment then reply +:+ newline +:+ default "" comment else reply in
    let! _ := if admin_audit conf then _send_admin reply else await (send reply) in
    (* 判断是否通过 *)
    let! (approve, reason) := sync (should_approve group_id user_id comment user_level) in
    let! _ := await (set_group_add_request flag "add" approve
                       (if negb approve then reason else "")) in
    let msg := "已自动" +:+ (if approve then "批准" else "驳回") +:+ ": " +:+ reason in
    await (send msg)
  (* 主动退群事件 *)
  else if leave_notify conf
     && bool_decide (raw !! "post_type" = Some "notice")
     && bool_decide (raw !! "notice_type" = Some "group_decrease")
     && bool_decide (raw !! "sub_type" = Some "leave")
  then
    let! nick := await (get_nickname user_id) in
    let msg := nick +:+ "(" +:+ user_id +:+ ") 主动退群了" in
    let! msg :=
      if leave_block conf
      then
        let! old_ids := sync (db_get GroupJoinData.get_block_ids group_id) in
        let! block_ids := sync (lift (py_add_list old_ids [user_id])) in
        let! _ := sync (db_do (GroupJoinData.set_block_ids group_id block_ids)) in
        mret (msg +:+ "，已拉进黑名单")
      else mret msg in
    await (send msg)
  (* 进群欢迎、禁言 *)
  else if bool_decide (raw !! "notice_type" = Some "group_increase")
     && negb (bool_decide (user_id = get_self_id event))
  then
    (* 进群欢迎 *)
    let! _ :=
      if negb (bool_decide (welcome_template conf = ""))
      then
        let! nick := await (get_nickname user_id) in
        let! welcome := sync (lift (str_format (welcome_template conf) nick)) in
        await (send welcome)
      else mret tt in
    (* 进群禁言 *)
    if 0 <? ban_time conf
    then try_except (let! gid := sync (lift (int_of_str group_id)) in
                     let! uid := sync (lift (int_of_str user_id)) in
                     await (set_group_ban gid uid (ban_time conf)))
    else mret tt
  else mret tt
  end.

(** ** Well-typed stores *)

(** A field holds a value of the type its getter declares:
    [get_switch -> bool], [get_*_keywords -> list[str]],
    [get_min_level -> int], [get_max_time -> int],
    [get_block_ids -> list[str]].  Other keys are not constrained. *)
Definition field_ok (key : string) (v : value) : bool :=
  if bool_decide (key = "switch")
  then match v with VBool _ => true | _ => false end
  else if bool_decide (key ∈ ["accept_keywords"; "reject_keywords"; "block_ids"])
  then match v with VList _ => true | _ => false end
  else if bool_decide (key ∈ ["min_level"; "max_time"])
  then match v with VInt _ => true | _ => false end
  else true.

Definition config_ok (cfg : config) : Prop :=
  map_Forall (fun key v => field_ok key v = true) cfg.

Definition store_ok (d : GroupJoinData.t) : Prop :=
  map_Forall (fun _ cfg => config_ok cfg) (GroupJoinData._cfg d)
  ∧ config_ok (GroupJoinData.default_cfg d).

#[global] Instance config_ok_dec cfg : Decision (config_ok cfg).
Proof. unfold config_ok. apply _. Defined.

#[global] Instance store_ok_dec d : Decision (store_ok d).
Proof. unfold store_ok. apply _. Defined.

(** ** States used in examples *)

Module Example.

(** Review on by default, no level threshold, two attempts. *)
Definition conf : join_config := {|
  default_switch := true;
  default_min_level := 0;
  default_max_time := 2;
  admin_audit := false;
  leave_notify := true;
  leave_block := true;
  welcome_template := "hi {nickname}";
  ban_time := 0
|}.

(** A fresh plugin: no file yet, nothing configured. *)
Definition fresh : JoinHandle := JoinHandle__init__ conf Missing Written [].

Definition on_db (f : GroupJoinData.t -> GroupJoinData.t) (self : JoinHandle) : JoinHandle :=
  with_db (f (db self)) self.

(** Group 1001 with the default config: review on, two attempts. *)
Definition with_defaults : JoinHandle :=
  on_db (GroupJoinData.ensure_group "1001") fresh.

(** Group 1001 after an admin sent [进群黑名单 42]. *)
Definition with_blacklist : JoinHandle :=
  on_db (GroupJoinData.set_block_ids "1001" (VList ["42"])) fresh.

(** Group 1001 with level threshold 10 and no attempt cap. *)
Definition with_level : JoinHandle :=
  on_db (GroupJoinData.set_max_time "1001" 0)
    (on_db (GroupJoinData.set_min_level "1001" 10) fresh).

(** Group 1001 with the reject keyword [spam]. *)
Definition with_reject : JoinHandle :=
  on_db (GroupJoinData.set_reject_keywords "1001" ["spam"]) fresh.

(** Group 1001 with the accept keyword [hello] and no attempt cap. *)
Definition with_accept : JoinHandle :=
  on_db (GroupJoinData.set_max_time "1001" 0)
    (on_db (GroupJoinData.set_accept_keywords "1001" ["hello"]) fresh).

(** Group 1001 with the review switched off. *)
Definition switched_off : JoinHandle :=
  on_db (GroupJoinData.set_switch "1001" false) fresh.

(** A platform on which every call succeeds. *)
Definition platform_ok : platform :=
  fun _ c =>
    match c with
    | get_stranger_info _ => Ok {| nickname := Some "Bob"; qqLevel := Some 5; level := None |}
    | get_nickname _ => Ok "Bob"
    | send_private_msg _ _ => Ok tt
    | send _ => Ok tt
    | set_group_add_request _ _ _ _ => Ok tt
    | set_group_ban _ _ _ => Ok tt
    end.

Definition event_of (fields : list (string * string)) : AiocqhttpMessageEvent :=
  {| raw_message := Some (list_to_map fields);
     get_group_id := "1001"; get_self_id := "10000"; message_str := "" |}.

(** User 42 asks to join group 1001. *)
Definition join_request : AiocqhttpMessageEvent :=
  event_of [("group_id", "1001"); ("user_id", "42"); ("post_type", "request");
            ("request_type", "group"); ("sub_type", "add"); ("flag", "f1")].

(** User 42 leaves group 1001. *)
Definition leave : AiocqhttpMessageEvent :=
  event_of [("group_id", "1001"); ("user_id", "42"); ("post_type", "notice");
            ("notice_type", "group_decrease"); ("sub_type", "leave")].

End Example.

(** ** JoinHandle: the other commands *)

Definition handle_accept_keyword `{Runtime} (event : AiocqhttpMessageEvent) : M unit :=
  let gid := get_group_id event in
  let keywords := str_split (removeprefix "进群白词" (message_str event)) in
  if negb (bool_decide (keywords = []))
  then
    let! _ := sync (db_do (GroupJoinData.set_accept_keywords gid keywords)) in
    await (send ("本群的进群关键词已设置为：" +:+ repr_list keywords))
  else
    let! keywords := sync (db_get GroupJoinData.get_accept_keywords gid) in
    await (send ("本群的进群关键词：" +:+ py_str keywords)).

Definition handle_reject_keywords `{Runtime} (event : AiocqhttpMessageEvent) : M unit :=
  let gid := get_group_id event in
  let keywords := str_split (removeprefix "进群黑词" (message_str event)) in
  if negb (bool_decide (keywords = []))
  then
    let! _ := sync (db_do (GroupJoinData.set_reject_keywords gid keywords)) in
    await (send ("新增进群黑名单关键词：" +:+ repr_list keywords))
  else
    let! keywords := sync (db_get GroupJoinData.get_reject_keywords gid) in
    await (send ("本群的进群黑名单关键词：" +:+ py_str keywords)).

(** [level: int | None]; [isinstance(level, int)] is [level] being there. *)
Definition handle_level_threshold `{Runtime} (event : AiocqhttpMessageEvent)
    (level : option Z) : M unit :=
  let gid := get_group_id event in
  match level with
  | Some level =>
      let! _ := sync (db_do (GroupJoinData.set_min_level gid level)) in
      let msg :=
        if 0 <? level
        then "已设置本群进群等级门槛：" +:+ pretty level +:+ "级"
        else "已解除本群的进群等级限制" in
      await (send msg)
  | None =>
      let! level := sync (db_get GroupJoinData.get_min_level gid) in
      await (send ("本群的进群等级门槛: " +:+ py_str level +:+ "级"))
  end.

Definition handle_join_time `{Runtime} (event : AiocqhttpMessageEvent)
    (time : option Z) : M unit :=
  let gid := get_group_id event in
  match time with
  | Some time =>
      let! _ := sync (db_do (GroupJoinData.set_max_time gid time)) in
      let msg :=
        if 0 <? time
        then "已限制本群进群次数：" +:+ pretty time +:+ "次"
        else "已解除本群的进群等级限制" in
      await (send msg)
  | None =>
      let! time := sync (db_get GroupJoinData.get_max_time gid) in
      await (send ("本群的进群最多可尝试 " +:+ py_str time +:+ " 次"))
  end.

(** ** JoinHandle: approving or refusing a quoted notification *)

(** [s.split(sep)] for a separator [sep]: cut at each occurrence of [sep],
    scanning from the left; [skip] counts the characters of an occurrence
    still to pass over. *)
Fixpoint split_from (sep : string) (skip : nat) (cur s : string) : list string :=
  match s with
  | EmptyString => [cur]
  | String c s' =>
      match skip with
      | S k => split_from sep k cur s'
      | O =>
          if starts_with sep s
          then cur :: split_from sep (String.length sep - 1) "" s'
          else split_from sep 0 (cur +:+ String c "") s'
      end
  end.

(** An empty separator is a [ValueError]. *)
Definition split_on (sep s : string) : res (list string) :=
  if bool_decide (sep = "") then Raise ValueError else Ok (split_from sep 0 "" s).

(** [set_approve] can also raise [IndexError], from a subscript. *)
Inductive raised : Type :=
| IndexError
| Uncaught (e : exn).

Inductive outcome (A : Type) : Type :=
| Returns (a : A)
| Raises (r : raised).
Arguments Returns {A} a.
Arguments Raises {A} r.

(** [l[i]] *)
Definition subscript (l : list string) (i : nat) : outcome string :=
  match l !! i with
  | Some x => Returns x
  | None => Raises IndexError
  end.

Definition of_res {A} (r : res A) : outcome A :=
  match r with
  | Ok a => Returns a
  | Raise e => Raises (Uncaught e)
  end.

Definition obind {A B} (o : outcome A) (k : A -> io (outcome B)) : io (outcome B) :=
  match o with
  | Returns a => k a
  | Raises r => Done (Raises r)
  end.

Notation "'let^' x ':=' o 'in' k" := (obind o (fun x => k))
  (at level 10, x pattern, o at level 100, k at level 200).

(** [set_approve(event, extra, approve)], a static method.  [text] is what
    [get_reply_message_str(event)] of [..utils] returns: the text of the
    quoted message, if any. *)
Definition set_approve (text : option string) (extra : string) (approve : bool)
    : io (outcome (option string)) :=
  if negb (truthy_str text) then Done (Returns (Some "未引用任何【进群申请】")) else
  let text := default "" text in
  let^ lines := of_res (split_on newline text) in
  if str_in "【进群申请】" text && (4 <=? List.length lines)%nat
  then
    (* 第2行冒号后文本为nickname *)
    let^ line1 := subscript lines 1 in
    let^ parts1 := of_res (split_on "：" line1) in
    let^ nickname := subscript parts1 1 in
    (* 第4行冒号后文本为flag *)
    let^ line3 := subscript lines 3 in
    let^ parts3 := of_res (split_on "：" line3) in
    let^ flag := subscript parts3 1 in
    Await (set_group_add_request flag "add" approve extra) (fun a =>
      match a with
      | Ok _ =>
          let reply :=
            if approve
            then "已同意" +:+ nickname +:+ "进群"
            else "已拒绝" +:+ nickname +:+ "进群"
                 +:+ (if negb (bool_decide (extra = ""))
                      then newline +:+ "理由：" +:+ extra else "") in
          Done (Returns (Some reply))
      | Raise _ => Done (Returns (Some "这条申请处理过了或者格式不对"))
      end)
  else Done (Returns None).

(** [reply = await self.set_approve(...)], then [if reply: await event.send(...)]. *)
Definition send_reply (p : io (outcome (option string))) : io (outcome unit) :=
  io_bind p (fun o =>
    let^ reply := o in
    if truthy_str reply
    then Await (send (default "" reply)) (fun a => Done (of_res a))
    else Done (Returns tt)).

Definition agree_add_group (text : option string) (extra : string) : io (outcome unit) :=
  send_reply (set_approve text extra true).

Definition refuse_add_group (text : option string) (extra : string) : io (outcome unit) :=
  send_reply (set_approve text extra false).

(** The notification [event_monitoring] sends for a join request. *)
Definition join_notice (nick user_id flag : string) (user_level : option Z)
    (comment : option string) : string :=
  let reply := "【进群申请】批准/驳回：" +:+ newline +:+ "昵称：" +:+ nick
               +:+ newline +:+ "QQ：" +:+ user_id +:+ newline +:+ "flag：" +:+ flag in
  let reply :=
    match user_level with
    | Some n => reply +:+ newline +:+ "等级：" +:+ pretty n
    | None => reply
    end in
  if truthy_str comment then reply +:+ newline +:+ default "" comment else reply.

(** ** Statements over every platform *)

(** Whatever the platform answers, each call the coroutine awaits satisfies
    [Q] and its result satisfies [P]. *)
Inductive always {R : Type} (Q : call -> Prop) (P : R -> Prop) : io R -> Prop :=
| always_done (r : R) : P r -> always Q P (Done r)
| always_await (c : call) (k : res (answer c) -> io R) :
    Q c -> (forall a, always Q P (k a)) -> always Q P (Await c k).

(** [self] after [n] identical calls of [should_approve]. *)
Fixpoint after_calls `{Runtime} (n : nat) (group_id user_id : string)
    (comment : option string) (user_level : option Z) (self : JoinHandle) : JoinHandle :=
  match n with
  | O => self
  | S n' =>
      after_calls n' group_id user_id comment user_level
        (should_approve group_id user_id comment user_level self).2
  end.

(** The keys the setters write. *)
Definition field_names : list string :=
  ["switch"; "accept_keywords"; "reject_keywords"; "min_level"; "max_time"; "block_ids"].

(** Every stored config, and the default one, has field names as keys only:
    what the constructor and the setters build. *)
Definition only_fields (cfg : config) : Prop :=
  map_Forall (fun key _ => key ∈ field_names) cfg.

Definition plain_store (d : GroupJoinData.t) : Prop :=
  map_Forall (fun _ cfg => only_fields cfg) (GroupJoinData._cfg d)
  ∧ only_fields (GroupJoinData.default_cfg d).

(** [self'] is [self] but for the config of [group_id] and the attempt
    counters: it is well typed, the same groups have a config, every other
    group reads as in [self], and the plugin configuration and the admin
    list are the same. *)
Definition touches_only (group_id : string) (self self' : JoinHandle) : Prop :=
  store_ok (db self')
  ∧ (forall g, is_Some (GroupJoinData._cfg (db self') !! g)
               <-> is_Some (GroupJoinData._cfg (db self) !! g))
  ∧ (forall g, g ≠ group_id ->
               GroupJoinData.get (db self') g = GroupJoinData.get (db self) g)
  ∧ jconf self' = jconf self
  ∧ admin_ids self' = admin_ids self.

(** * Properties *)

(** ** The store *)

Section Store.
Import GroupJoinData.

Lemma get_empty d g : _cfg d !! g = None -> get d g = ∅.
Proof. intros E. unfold get. by rewrite E. Qed.

Lemma get_stored d g cfg : _cfg d !! g = Some cfg -> get d g = cfg.
Proof. intros E. unfold get. by rewrite E. Qed.

Lemma config_ok_empty : config_ok ∅.
Proof. apply map_Forall_empty. Qed.

Lemma config_ok_insert key v cfg :
  field_ok key v = true -> config_ok cfg -> config_ok (<[key := v]> cfg).
Proof. intros Hv Hc. by apply map_Forall_insert_2. Qed.

Lemma get_ok d g : store_ok d -> config_ok (get d g).
Proof.
  intros [Hs _]. unfold get.
  destruct (_cfg d !! g) as [cfg|] eqn:E; simpl.
  - exact (Hs g cfg E).
  - apply config_ok_empty.
Qed.

Lemma save_cfg d : _cfg (save d) = _cfg d.
Proof. unfold save. by destruct (on_save d). Qed.

Lemma save_default_cfg d : default_cfg (save d) = default_cfg d.
Proof. unfold save. by destruct (on_save d). Qed.

Lemma store_ok_save d : store_ok d -> store_ok (save d).
Proof. unfold store_ok. by rewrite save_cfg, save_default_cfg. Qed.

Lemma store_ok_ensure_group g d : store_ok d -> store_ok (ensure_group g d).
Proof.
  intros Hd. unfold ensure_group.
  destruct (_cfg d !! g); [done|].
  apply store_ok_save. destruct Hd as [Hs Hdef].
  split; [|done]. simpl. by apply map_Forall_insert_2.
Qed.

Lemma store_ok_set g key v d :
  field_ok key v = true -> store_ok d -> store_ok (set g key v d).
Proof.
  intros Hv Hd. unfold set.
  pose proof (store_ok_ensure_group g d Hd) as He.
  apply store_ok_save. split; [|apply He]. simpl.
  apply map_Forall_insert_2; [|apply He].
  apply config_ok_insert; [done|]. apply (get_ok _ g He).
Qed.

(** After [set], the field reads back. *)
Lemma get_set g key v d : get (set g key v d) g !! key = Some v.
Proof.
  unfold set, get. rewrite save_cfg. simpl.
  rewrite lookup_insert_eq. simpl. by rewrite lookup_insert_eq.
Qed.

Lemma typed_switch d g : store_ok d -> ∃ b, get_switch d g = VBool b.
Proof.
  intros Hd. unfold get_switch.
  destruct (get d g !! "switch") as [v|] eqn:E; simpl; [|by eexists].
  pose proof (get_ok d g Hd _ _ E) as Hv.
  destruct v; try discriminate Hv. by eexists.
Qed.

Lemma typed_min_level d g : store_ok d -> ∃ n, get_min_level d g = VInt n.
Proof.
  intros Hd. unfold get_min_level.
  destruct (get d g !! "min_level") as [v|] eqn:E; simpl; [|by eexists].
  pose proof (get_ok d g Hd _ _ E) as Hv.
  destruct v; try discriminate Hv. by eexists.
Qed.

Lemma typed_max_time d g : store_ok d -> ∃ n, get_max_time d g = VInt n.
Proof.
  intros Hd. unfold get_max_time.
  destruct (get d g !! "max_time") as [v|] eqn:E; simpl; [|by eexists].
  pose proof (get_ok d g Hd _ _ E) as Hv.
  destruct v; try discriminate Hv. by eexists.
Qed.

Lemma typed_block_ids d g : store_ok d -> ∃ l, get_block_ids d g = VList l.
Proof.
  intros Hd. unfold get_block_ids.
  destruct (get d g !! "block_ids") as [v|] eqn:E; simpl; [|by eexists].
  pose proof (get_ok d g Hd _ _ E) as Hv.
  destruct v; try discriminate Hv. by eexists.
Qed.

Lemma typed_reject_keywords d g : store_ok d -> ∃ l, get_reject_keywords d g = VList l.
Proof.
  intros Hd. unfold get_reject_keywords.
  destruct (get d g !! "reject_keywords") as [v|] eqn:E; simpl; [|by eexists].
  pose proof (get_ok d g Hd _ _ E) as Hv.
  destruct v; try discriminate Hv. by eexists.
Qed.

Lemma typed_accept_keywords d g : store_ok d -> ∃ l, get_accept_keywords d g = VList l.
Proof.
  intros Hd. unfold get_accept_keywords.
  destruct (get d g !! "accept_keywords") as [v|] eqn:E; simpl; [|by eexists].
  pose proof (get_ok d g Hd _ _ E) as Hv.
  destruct v; try discriminate Hv. by eexists.
Qed.

(** A store built by the constructor is well typed when the file is. *)
Lemma store_ok_init file writes config :
  match file with
  | Stored data => map_Forall (fun _ cfg => config_ok cfg) data
  | _ => True
  end ->
  store_ok (__init__ file writes config).
Proof.
  intros Hf. split.
  - simpl. unfold _load. destruct file; simpl;
      rewrite ?save_cfg; simpl; try apply map_Forall_empty. exact Hf.
  - simpl. repeat (apply config_ok_insert; [reflexivity|]). apply config_ok_empty.
Qed.

End Store.

(** ** The rules of [should_approve] *)

Section Rules.
Context `{Runtime}.
Import GroupJoinData.

(** On a well-typed store no test raises. *)
Lemma blacklisted_total d g u : store_ok d -> ∃ b, blacklisted d g u = Ok b.
Proof.
  intros Hd. unfold blacklisted.
  destruct (typed_block_ids d g Hd) as [l ->].
  case_bool_decide; simpl; by eexists.
Qed.

(** The level test never raises on a numeric threshold: an absent level
    is caught by [user_level and ...] before it is compared. *)
Lemma level_too_low_total n lvl : ∃ b, level_too_low (VInt n) lvl = Ok b.
Proof.
  unfold level_too_low. simpl.
  destruct (0 <? n); simpl; [|by eexists].
  destruct lvl as [k|]; simpl; [|by eexists].
  destruct (k =? 0); simpl; by eexists.
Qed.

Lemma hits_reject_keyword_total d g c :
  store_ok d -> ∃ b, hits_reject_keyword d g c = Ok b.
Proof.
  intros Hd. unfold hits_reject_keyword.
  destruct (typed_reject_keywords d g Hd) as [l ->].
  destruct c as [c|]; simpl; [|by eexists].
  case_bool_decide; simpl; by eexists.
Qed.

Lemma hits_accept_keyword_total d g c :
  store_ok d -> ∃ b, hits_accept_keyword d g c = Ok b.
Proof.
  intros Hd. unfold hits_accept_keyword.
  destruct (typed_accept_keywords d g Hd) as [l ->].
  destruct c as [c|]; simpl; [|by eexists].
  case_bool_decide; simpl; [by eexists|].
  case_bool_decide; simpl; by eexists.
Qed.

(** What [should_approve] does once the outcome of each test is known:
    the first rule that fires decides; rule 3 rewrites the blacklist;
    rule 4 counts the attempt whenever a cap is set. *)
Lemma should_approve_run self g u c lvl b1 b2 b3 b5 bl n :
  blacklisted (db self) g u = Ok b1 ->
  level_too_low (get_min_level (db self) g) lvl = Ok b2 ->
  hits_reject_keyword (db self) g c = Ok b3 ->
  hits_accept_keyword (db self) g c = Ok b5 ->
  get_block_ids (db self) g = VList bl ->
  get_max_time (db self) g = VInt n ->
  should_approve g u c lvl self =
    if b1 then (Ok (false, "黑名单用户"), self)
    else if b2 then
      (Ok (false, "QQ等级过低(" +:+ level_str lvl +:+ "<"
                  +:+ py_str (get_min_level (db self) g) +:+ ")"), self)
    else if b3 then
      (Ok (false, "命中进群黑词"),
       with_db (set_block_ids g (VList (elements (list_to_set bl ∪ {[u]} : gset string)))
                  (db self)) self)
    else
      let count := default 0 (_fail self !! attempt_key g u) + 1 in
      let counted := with_fail (<[attempt_key g u := count]> (_fail self)) self in
      let self' := if 0 <? n then counted else self in
      if (0 <? n) && (n <? count)
      then (Ok (false, "进群尝试次数已达上限(" +:+ pretty n +:+ "次)"), self')
      else if b5 then (Ok (true, "验证通过"), self')
      else (Ok (true, ""), self').
Proof.
  intros H1 H2 H3 H5 Hbl Hn.
  unfold should_approve, bind, db_try, db_get, db_do, lift, ret, count_attempt.
  rewrite H1. destruct b1; [done|].
  rewrite H2. destruct b2; [done|].
  rewrite H3. destruct b3.
  { rewrite Hbl. done. }
  rewrite Hn. simpl.
  destruct (0 <? n); simpl.
  - destruct (n <? _); simpl; [done|].
    rewrite H5. by destruct b5.
  - rewrite H5. by destruct b5.
Qed.


End Rules.



(** ** Rule 3: a reject keyword *)

Section RejectKeyword.
Context `{Runtime}.
Import GroupJoinData.

Lemma any_keyword_true kws lower_comment :
  any_keyword kws lower_comment = true
  <-> ∃ k, k ∈ kws ∧ str_in (str_lower k) lower_comment = true.
Proof.
  unfold any_keyword. rewrite existsb_exists.
  split; intros (k & Hk & E); exists k; split; try done; by apply list_elem_of_In.
Qed.

Lemma get_block_ids_set g v d : get_block_ids (set_block_ids g v d) g = v.
Proof. unfold get_block_ids, set_block_ids. by rewrite get_set. Qed.

End RejectKeyword.

(** C2. When a non-empty comment contains, ignoring case, one of the group's
    reject keywords, and neither the blacklist rule nor the level rule fired,
    [should_approve] rejects with the reason 命中进群黑词, and the group's
    [block_ids] afterwards is the old list as a set plus the user: the user
    is in it whether or not they were before, and it has no duplicates. *)
Theorem reject_keyword_blacklists `{Runtime} (self : JoinHandle) (group_id user_id c : string)
    (user_level : option Z) (reject_keywords : list string) :
  store_ok (db self) ->
  c ≠ "" ->
  GroupJoinData.get_reject_keywords (db self) group_id = VList reject_keywords ->
  (∃ rk, rk ∈ reject_keywords ∧ str_in (str_lower rk) (str_lower c) = true) ->
  blacklisted (db self) group_id user_id = Ok false ->
  level_too_low (GroupJoinData.get_min_level (db self) group_id) user_level = Ok false ->
  ∃ self' old_ids block_ids,
    should_approve group_id user_id (Some c) user_level self
      = (Ok (false, "命中进群黑词"), self')
    ∧ GroupJoinData.get_block_ids (db self) group_id = VList old_ids
    ∧ GroupJoinData.get_block_ids (db self') group_id = VList block_ids
    ∧ user_id ∈ block_ids
    ∧ (∀ x, x ∈ block_ids <-> x = user_id ∨ x ∈ old_ids)
    ∧ NoDup block_ids.
Proof.
  intros Hd Hc Hrk Hhit H1 H2.
  destruct (typed_block_ids (db self) group_id Hd) as [bl Hbl].
  destruct (typed_max_time (db self) group_id Hd) as [n Hn].
  destruct (hits_accept_keyword_total (db self) group_id (Some c) Hd) as [b5 H5].
  assert (hits_reject_keyword (db self) group_id (Some c) = Ok true) as H3.
  { unfold hits_reject_keyword. rewrite Hrk. simpl.
    rewrite bool_decide_eq_false_2 by done. simpl.
    f_equal. by apply any_keyword_true. }
  eexists _, bl, _. split.
  { rewrite (should_approve_run self group_id user_id (Some c) user_level
               false false true b5 bl n) by done. reflexivity. }
  simpl. rewrite get_block_ids_set.
  split; [done|]. split; [done|].
  assert (∀ x, x ∈ elements (list_to_set bl ∪ {[user_id]} : gset string)
               <-> x = user_id ∨ x ∈ bl) as Hmem.
  { intros x.
    rewrite elem_of_elements, elem_of_union, elem_of_list_to_set, elem_of_singleton.
    tauto. }
  split; [apply Hmem; by left|].
  split; [exact Hmem|apply NoDup_elements].
Qed.

Lemma reject_keyword_blacklists_witness :
  ∃ self' block_ids,
    should_approve (H := ascii_runtime) "1001" "43" (Some "this is SPAM content") None
      Example.with_reject = (Ok (false, "命中进群黑词"), self')
    ∧ GroupJoinData.get_block_ids (db self') "1001" = VList block_ids
    ∧ "43" ∈ block_ids.
Proof.
  destruct (reject_keyword_blacklists (H := ascii_runtime) Example.with_reject
              "1001" "43" "this is SPAM content" None ["spam"])
    as (s & old & ids & E & _ & Hids & Hin & _).
  - apply (bool_decide_unpack _). vm_compute. exact I.
  - discriminate.
  - vm_compute. reflexivity.
  - exists "spam". split; [apply list_elem_of_here | vm_compute; reflexivity].
  - vm_compute. reflexivity.
  - vm_compute. reflexivity.
  - by exists s, ids.
Defined.

(** ** Rule 4: the attempt cap *)

Section AttemptCap.
Context `{Runtime}.
Import GroupJoinData.

(** One call that reaches rule 4 under a cap [n > 0]: the counter of the
    pair goes up by one, and the call is approved iff the new count does
    not exceed the cap. *)
Lemma attempt_step self g u c lvl n :
  store_ok (db self) ->
  blacklisted (db self) g u = Ok false ->
  level_too_low (get_min_level (db self) g) lvl = Ok false ->
  hits_reject_keyword (db self) g c = Ok false ->
  get_max_time (db self) g = VInt n ->
  0 < n ->
  let count := default 0 (_fail self !! attempt_key g u) + 1 in
  ∃ reason,
    should_approve g u c lvl self
      = (Ok (negb (n <? count), reason),
         with_fail (<[attempt_key g u := count]> (_fail self)) self)
    ∧ (n < count -> reason = "进群尝试次数已达上限(" +:+ pretty n +:+ "次)").
Proof.
  intros Hd H1 H2 H3 Hn Hpos count.
  destruct (typed_block_ids (db self) g Hd) as [bl Hbl].
  destruct (hits_accept_keyword_total (db self) g c Hd) as [b5 H5].
  rewrite (should_approve_run self g u c lvl false false false b5 bl n) by done.
  fold count.
  assert ((0 <? n) = true) as -> by lia. simpl.
  destruct (n <? count) eqn:E; simpl.
  - eexists. split; [reflexivity|done].
  - destruct b5; eexists; (split; [reflexivity|]); lia.
Qed.

End AttemptCap.

(** The counter is keyed by a string, and two pairs can share it. *)
Lemma attempt_key_shared : attempt_key "1_2" "3" = attempt_key "1" "2_3".
Proof. reflexivity. Qed.

Section AttemptKey.

#[local] Arguments String.append !_ _ / : simpl nomatch.

Lemma no_underscore_inside (c : ascii) (s : string) :
  str_in "_" (String c s) = false -> Ascii.eqb "_" c = false ∧ str_in "_" s = false.
Proof.
  intros Hno.
  change (starts_with "_" (String c s) || str_in "_" s = false) in Hno.
  apply orb_false_iff in Hno as [Hhere Hlater]. split; [|exact Hlater].
  cbn [starts_with] in Hhere. by destruct (Ascii.eqb "_" c).
Qed.

(** Group ids without an underscore (numeric ids are such) give every pair
    a key of its own: the key is cut at its first underscore. *)
Lemma attempt_key_injective (g g' u u' : string) :
  str_in "_" g = false ->
  str_in "_" g' = false ->
  attempt_key g u = attempt_key g' u' ->
  g = g' ∧ u = u'.
Proof.
  unfold attempt_key. revert g'.
  induction g as [|c g IH]; intros [|c' g'] Hg Hg' E; simpl in E.
  - by injection E as ->.
  - injection E as <- _. apply no_underscore_inside in Hg' as [Hc _].
    by rewrite Ascii.eqb_refl in Hc.
  - injection E as -> _. apply no_underscore_inside in Hg as [Hc _].
    by rewrite Ascii.eqb_refl in Hc.
  - injection E as -> E.
    apply no_underscore_inside in Hg as [_ Hg].
    apply no_underscore_inside in Hg' as [_ Hg'].
    by destruct (IH g' Hg Hg' E) as [-> ->].
Qed.

End AttemptKey.

(** A call of [should_approve] leaves the counter under every key but its
    own as it was. *)
Lemma other_counters_kept `{Runtime} (self : JoinHandle) (g u : string)
    (c : option string) (lvl : option Z) (key : string) :
  store_ok (db self) ->
  key ≠ attempt_key g u ->
  _fail (should_approve g u c lvl self).2 !! key = _fail self !! key.
Proof.
  intros Hd Hkey.
  destruct (blacklisted_total (db self) g u Hd) as [b1 H1].
  destruct (typed_min_level (db self) g Hd) as [m Hm].
  destruct (level_too_low_total m lvl) as [b2 H2]. rewrite <- Hm in H2.
  destruct (hits_reject_keyword_total (db self) g c Hd) as [b3 H3].
  destruct (hits_accept_keyword_total (db self) g c Hd) as [b5 H5].
  destruct (typed_block_ids (db self) g Hd) as [bl Hbl].
  destruct (typed_max_time (db self) g Hd) as [n Hn].
  rewrite (should_approve_run self g u c lvl b1 b2 b3 b5 bl n) by done.
  destruct b1; [done|]. destruct b2; [done|]. destruct b3; [done|].
  simpl. destruct (0 <? n); simpl; [destruct (n <? _)|]; destruct b5; simpl;
    try done; by rewrite lookup_insert_ne.
Qed.

(** C3, as the code has it.  Let the cap of a group be [n > 0] and let a
    request pass rules 1 to 3.  The attempts are counted under the key
    [f"{group_id}_{user_id}"]: each call of [should_approve] adds exactly
    one to the counter under that key (so a call that finds no entry leaves
    1), and the call rejects exactly when the new count exceeds [n], the
    reason then naming [n].  With [n = 2] and no entry under the key, three
    consecutive calls give approve, approve, reject with
    进群尝试次数已达上限(2次).  The counter is the pair's own when the
    group ids hold no underscore: then another pair has another key, and a
    call for another pair leaves this pair's counter as it was. *)
Theorem attempt_cap `{Runtime} (self : JoinHandle) (group_id user_id : string)
    (comment : option string) (user_level : option Z) (n : Z) :
  store_ok (db self) ->
  blacklisted (db self) group_id user_id = Ok false ->
  level_too_low (GroupJoinData.get_min_level (db self) group_id) user_level = Ok false ->
  hits_reject_keyword (db self) group_id comment = Ok false ->
  GroupJoinData.get_max_time (db self) group_id = VInt n ->
  0 < n ->
  let key := attempt_key group_id user_id in
  let count := default 0 (_fail self !! key) + 1 in
  (∃ approve reason self',
      should_approve group_id user_id comment user_level self = (Ok (approve, reason), self')
      ∧ _fail self' !! key = Some count
      ∧ (_fail self !! key = None -> count = 1)
      ∧ db self' = db self
      ∧ (approve = false <-> n < count)
      ∧ (approve = false -> reason = "进群尝试次数已达上限(" +:+ pretty n +:+ "次)"))
  ∧ (n = 2 -> _fail self !! key = None ->
     ∃ r1 r2 s1 s2 s3,
       should_approve group_id user_id comment user_level self = (Ok (true, r1), s1)
       ∧ should_approve group_id user_id comment user_level s1 = (Ok (true, r2), s2)
       ∧ should_approve group_id user_id comment user_level s2
         = (Ok (false, "进群尝试次数已达上限(2次)"), s3))
  ∧ (str_in "_" group_id = false ->
     forall other_group other_user other_comment other_level,
       str_in "_" other_group = false ->
       (other_group, other_user) ≠ (group_id, user_id) ->
       attempt_key other_group other_user ≠ key
       ∧ _fail (should_approve other_group other_user other_comment other_level self).2
           !! key
         = _fail self !! key).
Proof.
  intros Hd H1 H2 H3 Hn Hpos key count. split; [|split].
  - destruct (attempt_step self group_id user_id comment user_level n)
      as (reason & E & Hr); try done.
    eexists _, reason, _. split; [exact E|]. fold key count in Hr |- *.
    split; [simpl; apply lookup_insert_eq|].
    split; [intros E0; unfold count; by rewrite E0|].
    split; [done|].
    split.
    + rewrite negb_false_iff. lia.
    + rewrite negb_false_iff. intros; apply Hr; lia.
  - intros -> Hfresh.
    destruct (attempt_step self group_id user_id comment user_level 2)
      as (r1 & E1 & _); try done.
    fold key in E1. rewrite Hfresh in E1. simpl in E1.
    set (s1 := with_fail (<[key := 1]> (_fail self)) self) in E1.
    destruct (attempt_step s1 group_id user_id comment user_level 2)
      as (r2 & E2 & _); try done.
    fold key in E2. simpl in E2. rewrite lookup_insert_eq in E2. simpl in E2.
    set (s2 := with_fail (<[key := 2]> (<[key := 1]> (_fail self))) s1) in E2.
    destruct (attempt_step s2 group_id user_id comment user_level 2)
      as (r3 & E3 & Hr3); try done.
    fold key in E3, Hr3. simpl in E3, Hr3. rewrite lookup_insert_eq in E3, Hr3.
    simpl in E3, Hr3. rewrite Hr3 in E3 by lia.
    eexists r1, r2, s1, s2, _. split; [exact E1|]. split; [exact E2|exact E3].
  - intros Hg g' u' c' lvl' Hg' Hpair.
    assert (attempt_key g' u' ≠ key) as Hkey.
    { intros E. apply Hpair.
      by destruct (attempt_key_injective g' group_id u' user_id Hg' Hg E) as [-> ->]. }
    split; [exact Hkey|]. apply other_counters_kept; [done|]. by intros E.
Qed.

Lemma attempt_cap_witness :
  (∃ r1 r2 s1 s2 s3,
     should_approve (H := ascii_runtime) "1001" "43" None None Example.with_defaults
       = (Ok (true, r1), s1)
     ∧ should_approve (H := ascii_runtime) "1001" "43" None None s1 = (Ok (true, r2), s2)
     ∧ should_approve (H := ascii_runtime) "1001" "43" None None s2
       = (Ok (false, "进群尝试次数已达上限(2次)"), s3))
  ∧ attempt_key "1001" "44" ≠ attempt_key "1001" "43".
Proof.
  destruct (attempt_cap (H := ascii_runtime) Example.with_defaults
              "1001" "43" None None 2) as (_ & Hthree & Hown).
  - apply (bool_decide_unpack _). vm_compute. exact I.
  - vm_compute. reflexivity.
  - vm_compute. reflexivity.
  - vm_compute. reflexivity.
  - vm_compute. reflexivity.
  - lia.
  - split.
    + apply Hthree; [reflexivity | vm_compute; reflexivity].
    + apply (Hown eq_refl "1001" "44" None None); [reflexivity | discriminate].
Defined.

(** C3 as stated fails.  Groups 1_2 and 1 both have the cap 2 and no
    attempt has been recorded.  User 3 asks twice to join group 1_2.  Then
    user 2_3 asks to join group 1 for the first time: the pair is another
    one, yet its key is the same, the count it gets is 3 and not 1, and the
    request is rejected for the attempt limit. *)
Lemma attempt_counter_is_shared :
  let s0 := Example.on_db (GroupJoinData.ensure_group "1")
              (Example.on_db (GroupJoinData.ensure_group "1_2") Example.fresh) in
  let s1 := (should_approve (H := ascii_runtime) "1_2" "3" None None s0).2 in
  let s2 := (should_approve (H := ascii_runtime) "1_2" "3" None None s1).2 in
  let first := should_approve (H := ascii_runtime) "1" "2_3" None None s2 in
  _fail s0 = ∅
  ∧ GroupJoinData.get_max_time (db s0) "1" = VInt 2
  ∧ ("1", "2_3") ≠ ("1_2", "3")
  ∧ first.1 = Ok (false, "进群尝试次数已达上限(2次)")
  ∧ _fail first.2 !! attempt_key "1" "2_3" = Some 3.
Proof.
  cbv zeta. split; [reflexivity|]. split; [vm_compute; reflexivity|].
  split; [discriminate|]. split; vm_compute; reflexivity.
Qed.

(** ** Rules 1, 2 and 5 on concrete requests *)

Lemma starts_with_refl s : starts_with s s = true.
Proof. induction s as [|a s IH]; simpl; [done|]. by rewrite Ascii.eqb_refl. Qed.

Lemma str_in_refl s : str_in s s = true.
Proof. destruct s; simpl; [done|]. by rewrite Ascii.eqb_refl, starts_with_refl. Qed.

(** The blacklist test asks whether the group id is a key of the group's
    own config; when it is not, the rule cannot fire, whoever is listed. *)
Lemma blacklisted_needs_own_key d g u :
  GroupJoinData.get d g !! g = None -> blacklisted d g u = Ok false.
Proof.
  intros E. unfold blacklisted. rewrite E.
  rewrite bool_decide_eq_false_2; [done|]. by intros [? ?].
Qed.

(** The level test on a numeric threshold.  A level of 0 counts as absent. *)
Lemma level_too_low_spec m lvl :
  level_too_low (VInt m) lvl
  = Ok match lvl with
       | Some k => (0 <? m) && negb (k =? 0) && (k <? m)
       | None => false
       end.
Proof.
  unfold level_too_low. simpl.
  destruct (0 <? m); simpl; [|by destruct lvl].
  destruct lvl as [k|]; simpl; [|done].
  by destruct (k =? 0).
Qed.

(** C1. User 42 is on the blacklist of group 1001 (an admin put them there)
    and asks to join: [should_approve] approves, with the empty reason.  The
    test of rule 1 first asks for the group id among the keys of the
    group's config, where only field names are. *)
Theorem blacklisted_user_is_approved `{Runtime} :
  GroupJoinData.get_block_ids (db Example.with_blacklist) "1001" = VList ["42"]
  ∧ (should_approve "1001" "42" None None Example.with_blacklist).1 = Ok (true, "").
Proof. split; vm_compute; reflexivity. Qed.

(** C4. Group 1001 has level threshold 10 and a request comes with the
    known level 0: [should_approve] approves, with the empty reason, because
    [user_level and ...] takes 0 for an absent level.  The same request with
    level 5 is rejected with 5 and 10 in the reason. *)
Theorem level_zero_is_approved `{Runtime} :
  GroupJoinData.get_min_level (db Example.with_level) "1001" = VInt 10
  ∧ (should_approve "1001" "42" None (Some 0) Example.with_level).1 = Ok (true, "")
  ∧ (should_approve "1001" "42" None (Some 5) Example.with_level).1
    = Ok (false, "QQ等级过低(5<10)").
Proof. repeat split; vm_compute; reflexivity. Qed.

(** C5. Group 1001 has the accept keyword [hello] and a request comes with
    the comment [hello], which contains it: [should_approve] approves, but
    with the empty reason and not 验证通过.  The test of rule 5 first asks
    for the group id among the accept keywords. *)
Theorem accept_keyword_is_not_reported `{Runtime} :
  GroupJoinData.get_accept_keywords (db Example.with_accept) "1001" = VList ["hello"]
  ∧ any_keyword ["hello"] (str_lower "hello") = true
  ∧ (should_approve "1001" "42" (Some "hello") None Example.with_accept).1 = Ok (true, "").
Proof.
  split; [vm_compute; reflexivity|]. split.
  - unfold any_keyword. simpl. by rewrite str_in_refl.
  - vm_compute. reflexivity.
Qed.

(** ** Reading the config of a group that has none *)

(** C6, as the code has it.  For a group with no stored config, [get]
    returns the empty [dict], and the accessors return their own fallbacks:
    [False] for the switch, [0] for both thresholds, [[]] for the three
    lists, whatever defaults the plugin is configured with.  Reading leaves
    [self] as it was: memory, file and counters. *)
Theorem get_unseen_group (self : JoinHandle) (group_id : string) :
  GroupJoinData._cfg (db self) !! group_id = None ->
  GroupJoinData.get (db self) group_id = ∅
  ∧ GroupJoinData.get_switch (db self) group_id = VBool false
  ∧ GroupJoinData.get_accept_keywords (db self) group_id = VList []
  ∧ GroupJoinData.get_reject_keywords (db self) group_id = VList []
  ∧ GroupJoinData.get_min_level (db self) group_id = VInt 0
  ∧ GroupJoinData.get_max_time (db self) group_id = VInt 0
  ∧ GroupJoinData.get_block_ids (db self) group_id = VList []
  ∧ db_get GroupJoinData.get group_id self = (Ok ∅, self)
  ∧ db_get GroupJoinData.get_switch group_id self = (Ok (VBool false), self).
Proof.
  intros E.
  unfold db_get, GroupJoinData.get_switch, GroupJoinData.get_accept_keywords,
    GroupJoinData.get_reject_keywords, GroupJoinData.get_min_level,
    GroupJoinData.get_max_time, GroupJoinData.get_block_ids.
  rewrite (get_empty _ _ E). by rewrite lookup_empty.
Qed.

Lemma get_unseen_group_witness :
  GroupJoinData.get (db Example.fresh) "1001" = ∅
  ∧ GroupJoinData.get_switch (db Example.fresh) "1001" = VBool false.
Proof.
  destruct (get_unseen_group Example.fresh "1001") as (E1 & E2 & _).
  - vm_compute. reflexivity.
  - by split.
Defined.

(** C6 as stated fails: the plugin is configured with [default_switch =
    True] and [default_max_time = 2], group 1001 has no stored config, and
    [get] does not return the default config, nor do [get_switch] and
    [get_max_time] return the configured defaults. *)
Lemma get_unseen_group_is_not_default :
  let d := db Example.fresh in
  GroupJoinData._cfg d !! "1001" = None
  ∧ GroupJoinData.get d "1001" ≠ GroupJoinData.default_cfg d
  ∧ GroupJoinData.get_switch d "1001" ≠ VBool (default_switch Example.conf)
  ∧ GroupJoinData.get_max_time d "1001" ≠ VInt (default_max_time Example.conf).
Proof.
  simpl. split; [vm_compute; reflexivity|].
  split; [|split; vm_compute; discriminate].
  intros E. apply (f_equal (fun cfg : config => cfg !! "switch")) in E.
  vm_compute in E. discriminate E.
Qed.

(** ** Event routing *)

(** C8. When the switch of the event's group is off (stored as false, or not
    stored at all), [event_monitoring] is done at once: it awaits no call of
    the platform and leaves [self] as it was, so no config is created or
    saved, [should_approve] is not run and no attempt is counted. *)
Theorem disabled_group_is_ignored `{Runtime} (event : AiocqhttpMessageEvent)
    (raw : gmap string string) (self : JoinHandle) (env : platform) :
  raw_message event = Some raw ->
  truthy (GroupJoinData.get_switch (db self) (default "" (raw !! "group_id"))) = false ->
  event_monitoring event self = Done (Ok tt, self)
  ∧ run env (event_monitoring event self) = ((Ok tt, self), []).
Proof.
  intros Hraw Hoff.
  assert (event_monitoring event self = Done (Ok tt, self)) as E.
  { unfold event_monitoring. rewrite Hraw.
    unfold mbind, sync, db_get. simpl. by rewrite Hoff. }
  split; [exact E|]. by rewrite E.
Qed.

Lemma disabled_group_is_ignored_witness :
  run Example.platform_ok
    (event_monitoring (H := ascii_runtime) Example.join_request Example.switched_off)
  = ((Ok tt, Example.switched_off), []).
Proof.
  refine (proj2 (disabled_group_is_ignored (H := ascii_runtime) Example.join_request
                   (list_to_map [("group_id", "1001"); ("user_id", "42");
                                 ("post_type", "request"); ("request_type", "group");
                                 ("sub_type", "add"); ("flag", "f1")])
                   Example.switched_off Example.platform_ok _ _)).
  - reflexivity.
  - vm_compute. reflexivity.
Defined.

(** C7. User 42 is already on the blacklist of group 1001 and leaves the
    group, with [leave_notify] and [leave_block] on: [event_monitoring]
    appends the id, and the group's [block_ids] holds it twice.  The
    reject-keyword path of [should_approve] goes through a set instead. *)
Theorem leave_appends_a_duplicate `{Runtime} :
  let before := GroupJoinData.get_block_ids (db Example.with_blacklist) "1001" in
  let '((r, self'), calls) :=
    run Example.platform_ok (event_monitoring Example.leave Example.with_blacklist) in
  let after := GroupJoinData.get_block_ids (db self') "1001" in
  before = VList ["42"]
  ∧ r = Ok tt
  ∧ calls = [get_nickname "42"; send "Bob(42) 主动退群了，已拉进黑名单"]
  ∧ after = VList ["42"; "42"]
  ∧ ¬ NoDup ["42"; "42"].
Proof.
  vm_compute. repeat split; try reflexivity.
  intros Hnd. apply NoDup_cons in Hnd as [Hnot _].
  apply Hnot, list_elem_of_here.
Qed.

(** The admin command [进群黑名单 id ...] overwrites the list with the ids
    typed, as they were typed. *)
Lemma handle_reject_ids_overwrites `{Runtime} (event : AiocqhttpMessageEvent)
    (self : JoinHandle) (ids : list string) :
  str_split (removeprefix "进群黑名单" (message_str event)) = ids ->
  ids ≠ [] ->
  ∃ self',
    handle_reject_ids event self = Done (Ok tt, self')
    ∧ GroupJoinData.get_block_ids (db self') (get_group_id event) = VList ids.
Proof.
  intros E Hne. unfold handle_reject_ids. rewrite E.
  rewrite bool_decide_eq_false_2 by done. simpl.
  eexists. split; [reflexivity|]. simpl. apply get_block_ids_set.
Qed.

(** ** The review switch command *)

(** The two [case] clauses can match: a sequence of the six literals does. *)
Lemma _parse_mode_sequence :
  _parse_mode (PSeq [PStr "开"; PStr "开启"; PStr "on"; PStr "true"; PStr "1"; PBool true])
  = Some true.
Proof. reflexivity. Qed.

(** C10. For every [str], every [bool] and [None], [_parse_mode] returns
    [None]: each [case] clause is a sequence pattern of six literals, and
    neither a [str] nor a [bool] nor [None] is matched as a sequence.  So
    [handle_join_review] never writes the switch: it sends the status of the
    group and leaves [self] as it was. *)
Theorem parse_mode_always_none (event : AiocqhttpMessageEvent) (mode : pyobj)
    (self : JoinHandle) (env : platform) :
  declared_mode mode = true ->
  _parse_mode mode = None
  ∧ let status :=
      if truthy (GroupJoinData.get_switch (db self) (get_group_id event))
      then "开启" else "关闭" in
    let msg := "本群进群审核：" +:+ status in
    run env (handle_join_review event mode self) = ((env [] (send msg), self), [send msg]).
Proof.
  intros Hmode.
  assert (_parse_mode mode = None) as E by (by destruct mode).
  split; [exact E|].
  unfold handle_join_review. rewrite E. reflexivity.
Qed.

Lemma parse_mode_always_none_witness :
  _parse_mode (PStr "on") = None
  ∧ run Example.platform_ok (handle_join_review Example.join_request (PStr "on")
                               Example.switched_off)
    = ((Ok tt, Example.switched_off), [send "本群进群审核：关闭"]).
Proof.
  destruct (parse_mode_always_none Example.join_request (PStr "on") Example.switched_off
              Example.platform_ok) as [E1 E2].
  - reflexivity.
  - split; [exact E1|]. rewrite E2. vm_compute. reflexivity.
Defined.

(** * Further properties *)

(** ** GroupJoinData: reading back, framing, persistence *)

Section StoreLaws.
Import GroupJoinData.

Lemma cfg_set g key v d :
  _cfg (set g key v d)
  = <[g := <[key := v]> (get (ensure_group g d) g)]> (_cfg (ensure_group g d)).
Proof. unfold set. by rewrite save_cfg. Qed.

Lemma cfg_ensure_group g d :
  _cfg (ensure_group g d)
  = match _cfg d !! g with
    | Some _ => _cfg d
    | None => <[g := default_cfg d]> (_cfg d)
    end.
Proof. unfold ensure_group. destruct (_cfg d !! g); [done|]. by rewrite save_cfg. Qed.

Lemma get_ensure_group g d :
  get (ensure_group g d) g
  = match _cfg d !! g with
    | Some cfg => cfg
    | None => default_cfg d
    end.
Proof.
  unfold get. rewrite cfg_ensure_group.
  destruct (_cfg d !! g) as [cfg|] eqn:E; [by rewrite E|by rewrite lookup_insert_eq].
Qed.

Lemma get_ensure_group_other g g' d : g' ≠ g -> get (ensure_group g d) g' = get d g'.
Proof.
  intros Hne. unfold get. rewrite cfg_ensure_group.
  destruct (_cfg d !! g); [done|]. by rewrite lookup_insert_ne.
Qed.

Lemma save_on_save d : on_save (save d) = on_save d.
Proof. unfold save. by destruct (on_save d) eqn:W. Qed.

Lemma save_path d : on_save d = Written -> path (save d) = Stored (_cfg d).
Proof. intros W. unfold save. by rewrite W. Qed.

Lemma ensure_group_on_save g d : on_save (ensure_group g d) = on_save d.
Proof. unfold ensure_group. destruct (_cfg d !! g); [done|]. by rewrite save_on_save. Qed.

Lemma ensure_group_default_cfg g d : default_cfg (ensure_group g d) = default_cfg d.
Proof.
  unfold ensure_group. destruct (_cfg d !! g); [done|]. by rewrite save_default_cfg.
Qed.

End StoreLaws.

(** X1. What a setter writes, the matching getter reads back, whatever the
    store held before (the group may be new, the field may have been set). *)
Theorem setters_read_back (d : GroupJoinData.t) (group_id : string)
    (on : bool) (kws : list string) (n : Z) (uids : value) :
  GroupJoinData.get_switch (GroupJoinData.set_switch group_id on d) group_id = VBool on
  ∧ GroupJoinData.get_accept_keywords
      (GroupJoinData.set_accept_keywords group_id kws d) group_id = VList kws
  ∧ GroupJoinData.get_reject_keywords
      (GroupJoinData.set_reject_keywords group_id kws d) group_id = VList kws
  ∧ GroupJoinData.get_min_level (GroupJoinData.set_min_level group_id n d) group_id = VInt n
  ∧ GroupJoinData.get_max_time (GroupJoinData.set_max_time group_id n d) group_id = VInt n
  ∧ GroupJoinData.get_block_ids (GroupJoinData.set_block_ids group_id uids d) group_id = uids.
Proof.
  unfold GroupJoinData.get_switch, GroupJoinData.set_switch,
    GroupJoinData.get_accept_keywords, GroupJoinData.set_accept_keywords,
    GroupJoinData.get_reject_keywords, GroupJoinData.set_reject_keywords,
    GroupJoinData.get_min_level, GroupJoinData.set_min_level,
    GroupJoinData.get_max_time, GroupJoinData.set_max_time,
    GroupJoinData.get_block_ids, GroupJoinData.set_block_ids.
  by rewrite !get_set.
Qed.

(** X2. Writing one field of one group changes nothing else: the config of
    every other group is as before, and so is every other field of the
    group written, when that group had a config. *)
Theorem set_changes_one_field (d : GroupJoinData.t) (group_id key : string) (v : value)
    (other_group other_key : string) (cfg : config) :
  other_group ≠ group_id ->
  other_key ≠ key ->
  GroupJoinData._cfg d !! group_id = Some cfg ->
  GroupJoinData.get (GroupJoinData.set group_id key v d) other_group
    = GroupJoinData.get d other_group
  ∧ GroupJoinData.get (GroupJoinData.set group_id key v d) group_id !! other_key
    = cfg !! other_key.
Proof.
  intros Hg Hk Hcfg. split.
  - unfold GroupJoinData.get at 1. rewrite cfg_set, lookup_insert_ne by done.
    apply (get_ensure_group_other group_id other_group d Hg).
  - unfold GroupJoinData.get at 1. rewrite cfg_set, lookup_insert_eq. simpl.
    rewrite lookup_insert_ne by done. by rewrite get_ensure_group, Hcfg.
Qed.

Lemma set_changes_one_field_witness :
  GroupJoinData.get
    (GroupJoinData.set "1001" "min_level" (VInt 7) (db Example.with_blacklist)) "2002"
    = GroupJoinData.get (db Example.with_blacklist) "2002"
  ∧ GroupJoinData.get_block_ids
      (GroupJoinData.set "1001" "min_level" (VInt 7) (db Example.with_blacklist)) "1001"
    = VList ["42"].
Proof.
  destruct (set_changes_one_field (db Example.with_blacklist) "1001" "min_level" (VInt 7)
              "2002" "block_ids" (GroupJoinData.get (db Example.with_blacklist) "1001"))
    as [E1 E2].
  - discriminate.
  - discriminate.
  - vm_compute. reflexivity.
  - split; [exact E1|]. unfold GroupJoinData.get_block_ids. rewrite E2.
    vm_compute. reflexivity.
Defined.

(** X3. The first write to a group that has no config creates the config
    from the defaults: every field but the one written reads as configured.
    So on a store made by the constructor, setting a level threshold for a
    new group also gives it [default_switch], [default_max_time] and empty
    lists. *)
Theorem first_write_fills_in_defaults (file : json_file) (writes : write_outcome)
    (config : join_config) (group_id : string) (level : Z) :
  let d := GroupJoinData.__init__ file writes config in
  let d' := GroupJoinData.set_min_level group_id level d in
  GroupJoinData._cfg d !! group_id = None ->
  GroupJoinData.get_min_level d' group_id = VInt level
  ∧ GroupJoinData.get_switch d' group_id = VBool (default_switch config)
  ∧ GroupJoinData.get_max_time d' group_id = VInt (default_max_time config)
  ∧ GroupJoinData.get_accept_keywords d' group_id = VList []
  ∧ GroupJoinData.get_reject_keywords d' group_id = VList []
  ∧ GroupJoinData.get_block_ids d' group_id = VList [].
Proof.
  intros d d' Hnew.
  assert (GroupJoinData.get d' group_id
          = <["min_level" := VInt level]> (GroupJoinData.default_cfg d)) as E.
  { unfold d', GroupJoinData.set_min_level. unfold GroupJoinData.get at 1.
    rewrite cfg_set, lookup_insert_eq. simpl. by rewrite get_ensure_group, Hnew. }
  unfold GroupJoinData.get_min_level, GroupJoinData.get_switch,
    GroupJoinData.get_max_time, GroupJoinData.get_accept_keywords,
    GroupJoinData.get_reject_keywords, GroupJoinData.get_block_ids.
  rewrite E. simpl. repeat split; by simplify_map_eq.
Qed.

Lemma first_write_fills_in_defaults_witness :
  GroupJoinData.get_switch
    (GroupJoinData.set_min_level "1001" 10 (db Example.fresh)) "1001" = VBool true
  ∧ GroupJoinData.get_max_time
      (GroupJoinData.set_min_level "1001" 10 (db Example.fresh)) "1001" = VInt 2.
Proof.
  destruct (first_write_fills_in_defaults Missing Written Example.conf "1001" 10)
    as (_ & E1 & E2 & _).
  - vm_compute. reflexivity.
  - split; [exact E1|exact E2].
Defined.

(** X4. When the file gets written, every setter and [remove] write through: the
    file then holds exactly the configs in memory, and an instance built
    from that file (a restart) reads the same config for every group. *)
Theorem write_then_reload (d : GroupJoinData.t) (group_id key : string) (v : value)
    (writes : write_outcome) (config : join_config) (g : string) :
  GroupJoinData.on_save d = Written ->
  let d1 := GroupJoinData.set group_id key v d in
  let d2 := GroupJoinData.remove group_id d in
  GroupJoinData.path d1 = Stored (GroupJoinData._cfg d1)
  ∧ GroupJoinData.path d2 = Stored (GroupJoinData._cfg d2)
  ∧ GroupJoinData.get (GroupJoinData.__init__ (GroupJoinData.path d1) writes config) g
    = GroupJoinData.get d1 g
  ∧ GroupJoinData.get (GroupJoinData.__init__ (GroupJoinData.path d2) writes config) g
    = GroupJoinData.get d2 g.
Proof.
  intros W d1 d2.
  assert (GroupJoinData.path d1 = Stored (GroupJoinData._cfg d1)) as E1.
  { unfold d1, GroupJoinData.set. rewrite save_cfg. apply save_path.
    simpl. by rewrite ensure_group_on_save. }
  assert (GroupJoinData.path d2 = Stored (GroupJoinData._cfg d2)) as E2.
  { unfold d2, GroupJoinData.remove. rewrite save_cfg. by apply save_path. }
  split; [exact E1|]. split; [exact E2|].
  unfold GroupJoinData.get, GroupJoinData.__init__, GroupJoinData._load.
  simpl. rewrite E1, E2. done.
Qed.

Lemma write_then_reload_witness :
  GroupJoinData.get_block_ids
    (GroupJoinData.__init__ (GroupJoinData.path (db Example.with_blacklist)) Written
       Example.conf)
    "1001" = VList ["42"].
Proof.
  destruct (write_then_reload (db Example.fresh) "1001" "block_ids" (VList ["42"])
              Written Example.conf "1001") as (_ & _ & E & _).
  - reflexivity.
  - unfold GroupJoinData.get_block_ids.
    change (db Example.with_blacklist)
      with (GroupJoinData.set "1001" "block_ids" (VList ["42"]) (db Example.fresh)).
    rewrite E. vm_compute. reflexivity.
Defined.

(** X5. A failed save is silent and costs the update its persistence: the
    setter still updates memory, but the file does not hold the update.
    When the file could not be opened it is as it was, and an instance
    built from it afterwards reads what one built before the update would
    have read.  When the dump broke off after the file was opened, the file
    is left unreadable, and an instance built from it afterwards has no
    config for any group. *)
Theorem failed_save_is_silent (d : GroupJoinData.t) (group_id key : string) (v : value)
    (writes : write_outcome) (config : join_config) (g : string) :
  GroupJoinData.on_save d ≠ Written ->
  let d' := GroupJoinData.set group_id key v d in
  let reloaded := GroupJoinData.__init__ (GroupJoinData.path d') writes config in
  GroupJoinData.get d' group_id !! key = Some v
  ∧ (GroupJoinData.on_save d = NotOpened ->
     GroupJoinData.path d' = GroupJoinData.path d
     ∧ GroupJoinData._cfg reloaded
       = GroupJoinData._cfg (GroupJoinData.__init__ (GroupJoinData.path d) writes config))
  ∧ (GroupJoinData.on_save d = Torn ->
     GroupJoinData.path d' = Corrupt
     ∧ GroupJoinData.get reloaded g = ∅).
Proof.
  intros W d' reloaded. split; [apply get_set|].
  assert (GroupJoinData.path d'
          = match GroupJoinData.on_save d with
            | Written => Stored (GroupJoinData._cfg d')
            | NotOpened => GroupJoinData.path d
            | Torn => Corrupt
            end) as E.
  { unfold d', GroupJoinData.set, GroupJoinData.save. simpl.
    rewrite ensure_group_on_save.
    unfold GroupJoinData.ensure_group, GroupJoinData.save.
    destruct (GroupJoinData.on_save d) eqn:Hw; [done| |done].
    destruct (GroupJoinData._cfg d !! group_id); [done|]. simpl. by rewrite Hw. }
  split; intros Hw; rewrite Hw in E.
  - split; [exact E|]. unfold reloaded. by rewrite E.
  - split; [exact E|]. unfold reloaded. rewrite E.
    by destruct writes.
Qed.

Lemma failed_save_is_silent_witness :
  let d := GroupJoinData.set_switch "2002" true
             (GroupJoinData.__init__ Missing Written Example.conf) in
  let torn := GroupJoinData.with_on_save Torn d in
  let d' := GroupJoinData.set_min_level "1001" 10 torn in
  GroupJoinData.get_min_level d' "1001" = VInt 10
  ∧ GroupJoinData.path d' = Corrupt
  ∧ GroupJoinData.get (GroupJoinData.__init__ (GroupJoinData.path d') Written Example.conf)
      "2002" = ∅.
Proof.
  intros d torn d'.
  destruct (failed_save_is_silent torn "1001" "min_level" (VInt 10) Written Example.conf
              "2002") as (E1 & _ & E2).
  - discriminate.
  - destruct E2 as [E2 E3]; [reflexivity|].
    split; [|split; [exact E2|exact E3]].
    unfold GroupJoinData.get_min_level, d', GroupJoinData.set_min_level. by rewrite E1.
Defined.

(** X6. A missing or unreadable file gives an empty store: no group has a
    config, every accessor returns its fallback, and when the file can be
    written it is replaced by an empty mapping, so what an unreadable file
    held is gone.  (When that write cannot open the file, the file stays as
    it was; when it breaks off, the file is left unreadable.) *)
Theorem unreadable_file_starts_empty (file : json_file) (writes : write_outcome)
    (config : join_config) (group_id : string) :
  file = Missing ∨ file = Corrupt ->
  let d := GroupJoinData.__init__ file writes config in
  GroupJoinData._cfg d = ∅
  ∧ GroupJoinData.path d
    = match writes with
      | Written => Stored ∅
      | NotOpened => file
      | Torn => Corrupt
      end
  ∧ GroupJoinData.get d group_id = ∅
  ∧ GroupJoinData.get_switch d group_id = VBool false
  ∧ GroupJoinData.get_min_level d group_id = VInt 0
  ∧ GroupJoinData.get_max_time d group_id = VInt 0.
Proof.
  intros [-> | ->]; destruct writes; simpl; repeat split; reflexivity.
Qed.

Lemma unreadable_file_starts_empty_witness :
  GroupJoinData._cfg (GroupJoinData.__init__ Corrupt Written Example.conf) = ∅
  ∧ GroupJoinData.path (GroupJoinData.__init__ Corrupt Written Example.conf) = Stored ∅.
Proof.
  destruct (unreadable_file_starts_empty Corrupt Written Example.conf "1001")
    as (E1 & E2 & _).
  - by right.
  - split; [exact E1|exact E2].
Defined.

(** X7. [remove] forgets one group and no other: the group then reads as
    one that never had a config (fallbacks, not the configured defaults),
    every other group reads as before, and the next [ensure_group] gives
    the group the default config again. *)
Theorem remove_forgets_one_group (d : GroupJoinData.t) (group_id other : string) :
  other ≠ group_id ->
  let d' := GroupJoinData.remove group_id d in
  GroupJoinData.get d' group_id = ∅
  ∧ GroupJoinData.get_switch d' group_id = VBool false
  ∧ GroupJoinData.get_block_ids d' group_id = VList []
  ∧ GroupJoinData.get d' other = GroupJoinData.get d other
  ∧ GroupJoinData.get (GroupJoinData.ensure_group group_id d') group_id
    = GroupJoinData.default_cfg d.
Proof.
  intros Hne d'.
  assert (GroupJoinData._cfg d' = delete group_id (GroupJoinData._cfg d)) as E.
  { unfold d', GroupJoinData.remove. by rewrite save_cfg. }
  assert (GroupJoinData.get d' group_id = ∅) as E0.
  { unfold GroupJoinData.get. by rewrite E, lookup_delete_eq. }
  split; [exact E0|].
  unfold GroupJoinData.get_switch, GroupJoinData.get_block_ids. rewrite E0.
  split; [done|]. split; [done|]. split.
  - unfold GroupJoinData.get. by rewrite E, lookup_delete_ne.
  - rewrite get_ensure_group, E, lookup_delete_eq.
    unfold d', GroupJoinData.remove. by rewrite save_default_cfg.
Qed.

Lemma remove_forgets_one_group_witness :
  GroupJoinData.get_block_ids
    (GroupJoinData.remove "1001" (db Example.with_blacklist)) "1001" = VList [].
Proof.
  destruct (remove_forgets_one_group (db Example.with_blacklist) "1001" "2002")
    as (_ & _ & E & _).
  - discriminate.
  - exact E.
Defined.

(** X8. [ensure_group] never overwrites: on a group that has a config it
    returns the store unchanged, file included, and it is idempotent. *)
Theorem ensure_group_keeps_existing (d : GroupJoinData.t) (group_id : string) :
  (is_Some (GroupJoinData._cfg d !! group_id) -> GroupJoinData.ensure_group group_id d = d)
  ∧ is_Some (GroupJoinData._cfg (GroupJoinData.ensure_group group_id d) !! group_id)
  ∧ GroupJoinData.ensure_group group_id (GroupJoinData.ensure_group group_id d)
    = GroupJoinData.ensure_group group_id d.
Proof.
  assert (is_Some (GroupJoinData._cfg (GroupJoinData.ensure_group group_id d) !! group_id))
    as Hs.
  { rewrite cfg_ensure_group.
    destruct (GroupJoinData._cfg d !! group_id) eqn:E; [by rewrite E|].
    by rewrite lookup_insert_eq. }
  assert (∀ d0, is_Some (GroupJoinData._cfg d0 !! group_id)
                -> GroupJoinData.ensure_group group_id d0 = d0) as Hid.
  { intros d0 [cfg E]. unfold GroupJoinData.ensure_group. by rewrite E. }
  split; [apply Hid|]. split; [exact Hs|]. by apply Hid.
Qed.

(** X9. Every mutator keeps the store well typed: after a typed setter,
    [remove] or [ensure_group], each field still holds a value of the type
    its getter declares. *)
Theorem mutators_keep_types (d : GroupJoinData.t) (group_id : string)
    (on : bool) (kws : list string) (n : Z) :
  store_ok d ->
  store_ok (GroupJoinData.set_switch group_id on d)
  ∧ store_ok (GroupJoinData.set_accept_keywords group_id kws d)
  ∧ store_ok (GroupJoinData.set_reject_keywords group_id kws d)
  ∧ store_ok (GroupJoinData.set_min_level group_id n d)
  ∧ store_ok (GroupJoinData.set_max_time group_id n d)
  ∧ store_ok (GroupJoinData.set_block_ids group_id (VList kws) d)
  ∧ store_ok (GroupJoinData.remove group_id d)
  ∧ store_ok (GroupJoinData.ensure_group group_id d).
Proof.
  intros Hd.
  repeat (split; [by apply store_ok_set|]).
  split; [|by apply store_ok_ensure_group].
  unfold GroupJoinData.remove. apply store_ok_save.
  destruct Hd as [Hs Hdef]. split; [|done]. simpl. by apply map_Forall_delete.
Qed.

Lemma mutators_keep_types_witness :
  store_ok (GroupJoinData.set_min_level "1001" 10 (db Example.with_blacklist)).
Proof.
  destruct (mutators_keep_types (db Example.with_blacklist) "1001" true [] 10)
    as (_ & _ & _ & E & _).
  - apply (bool_decide_unpack _). vm_compute. exact I.
  - exact E.
Defined.

(** ** should_approve: what a call touches *)

Section ApproveFrame.
Context `{Runtime}.
Import GroupJoinData.

Lemma get_set_other g key v d g' : g' ≠ g -> get (set g key v d) g' = get d g'.
Proof.
  intros Hne. unfold get at 1. rewrite cfg_set, lookup_insert_ne by done.
  by apply get_ensure_group_other.
Qed.

(** The premises of [should_approve_run], for a well-typed store. *)
Lemma should_approve_cases self g u c lvl :
  store_ok (db self) ->
  ∃ b1 b2 b3 b5 bl n,
    blacklisted (db self) g u = Ok b1
    ∧ level_too_low (get_min_level (db self) g) lvl = Ok b2
    ∧ hits_reject_keyword (db self) g c = Ok b3
    ∧ hits_accept_keyword (db self) g c = Ok b5
    ∧ get_block_ids (db self) g = VList bl
    ∧ get_max_time (db self) g = VInt n.
Proof.
  intros Hd.
  destruct (blacklisted_total (db self) g u Hd) as [b1 H1].
  destruct (typed_min_level (db self) g Hd) as [m Hm].
  destruct (level_too_low_total m lvl) as [b2 H2]. rewrite <- Hm in H2.
  destruct (hits_reject_keyword_total (db self) g c Hd) as [b3 H3].
  destruct (hits_accept_keyword_total (db self) g c Hd) as [b5 H5].
  destruct (typed_block_ids (db self) g Hd) as [bl Hbl].
  destruct (typed_max_time (db self) g Hd) as [n Hn].
  by exists b1, b2, b3, b5, bl, n.
Qed.

End ApproveFrame.

(** X10. A call of [should_approve] changes the store only when a reject
    keyword is hit: in every other case, and whenever the request is
    approved, memory and file are as before. *)
Theorem store_changes_only_on_reject_keyword `{Runtime} (self : JoinHandle)
    (group_id user_id : string) (comment : option string) (user_level : option Z) :
  store_ok (db self) ->
  ∃ approve reason self',
    should_approve group_id user_id comment user_level self = (Ok (approve, reason), self')
    ∧ (db self' = db self
       ∨ (approve = false ∧ reason = "命中进群黑词"
          ∧ hits_reject_keyword (db self) group_id comment = Ok true)).
Proof.
  intros Hd.
  destruct (should_approve_cases self group_id user_id comment user_level Hd)
    as (b1 & b2 & b3 & b5 & bl & n & H1 & H2 & H3 & H5 & Hbl & Hn).
  rewrite (should_approve_run self group_id user_id comment user_level b1 b2 b3 b5 bl n)
    by done.
  destruct b1; [by eauto 10|]. destruct b2; [by eauto 10|].
  destruct b3; [by eauto 10|].
  simpl. destruct (0 <? n); simpl; [destruct (n <? _)|]; destruct b5; by eauto 10.
Qed.

Lemma store_changes_only_on_reject_keyword_witness :
  ∃ approve reason self',
    should_approve (H := ascii_runtime) "1001" "43" (Some "hello") None Example.with_reject
      = (Ok (approve, reason), self')
    ∧ (db self' = db Example.with_reject
       ∨ (approve = false ∧ reason = "命中进群黑词"
          ∧ hits_reject_keyword (H := ascii_runtime) (db Example.with_reject) "1001"
              (Some "hello") = Ok true)).
Proof.
  apply (store_changes_only_on_reject_keyword (H := ascii_runtime) Example.with_reject
           "1001" "43" (Some "hello") None).
  apply (bool_decide_unpack _). vm_compute. exact I.
Defined.

(** X11. A call of [should_approve] for one group and user touches nothing
    that belongs to another: every other group's config and every other
    attempt counter are as before, no counter goes down, and the plugin
    configuration and admin list are unchanged. *)
Theorem should_approve_touches_one_pair `{Runtime} (self : JoinHandle)
    (group_id user_id : string) (comment : option string) (user_level : option Z)
    (other_group other_key : string) :
  store_ok (db self) ->
  other_group ≠ group_id ->
  other_key ≠ attempt_key group_id user_id ->
  let self' := (should_approve group_id user_id comment user_level self).2 in
  GroupJoinData.get (db self') other_group = GroupJoinData.get (db self) other_group
  ∧ _fail self' !! other_key = _fail self !! other_key
  ∧ (∀ key, default 0 (_fail self !! key) <= default 0 (_fail self' !! key))
  ∧ jconf self' = jconf self
  ∧ admin_ids self' = admin_ids self.
Proof.
  intros Hd Hg Hk.
  destruct (should_approve_cases self group_id user_id comment user_level Hd)
    as (b1 & b2 & b3 & b5 & bl & n & H1 & H2 & H3 & H5 & Hbl & Hn).
  rewrite (should_approve_run self group_id user_id comment user_level b1 b2 b3 b5 bl n)
    by done.
  assert (∀ key, default 0 (_fail self !! key)
                 <= default 0 (<[attempt_key group_id user_id :=
                                   default 0 (_fail self !! attempt_key group_id user_id) + 1]>
                                 (_fail self) !! key)) as Hmono.
  { intros key. destruct (decide (key = attempt_key group_id user_id)) as [->|Hne].
    - rewrite lookup_insert_eq. simpl. lia.
    - by rewrite lookup_insert_ne. }
  destruct b1; [done|]. destruct b2; [done|].
  destruct b3.
  { simpl. split; [by apply get_set_other|done]. }
  simpl. destruct (0 <? n); simpl; [destruct (n <? _)|]; destruct b5; simpl;
    repeat split; try done; by rewrite lookup_insert_ne.
Qed.

Lemma should_approve_touches_one_pair_witness :
  GroupJoinData.get
    (db (should_approve (H := ascii_runtime) "1001" "43" (Some "spam") None
           Example.with_reject).2) "2002"
  = GroupJoinData.get (db Example.with_reject) "2002".
Proof.
  destruct (should_approve_touches_one_pair (H := ascii_runtime) Example.with_reject
              "1001" "43" (Some "spam") None "2002" "2002_43") as (E & _).
  - apply (bool_decide_unpack _). vm_compute. exact I.
  - discriminate.
  - discriminate.
  - exact E.
Defined.

(** X12. No attempt is counted when the group has no cap (a cap of 0 or
    less) or when one of rules 1 to 3 rejects the request: the counters are
    then all as before. *)
Theorem attempts_not_counted `{Runtime} (self : JoinHandle)
    (group_id user_id : string) (comment : option string) (user_level : option Z) (n : Z) :
  store_ok (db self) ->
  GroupJoinData.get_max_time (db self) group_id = VInt n ->
  n <= 0
  ∨ blacklisted (db self) group_id user_id = Ok true
  ∨ level_too_low (GroupJoinData.get_min_level (db self) group_id) user_level = Ok true
  ∨ hits_reject_keyword (db self) group_id comment = Ok true ->
  _fail (should_approve group_id user_id comment user_level self).2 = _fail self.
Proof.
  intros Hd Hn Hcase.
  destruct (should_approve_cases self group_id user_id comment user_level Hd)
    as (b1 & b2 & b3 & b5 & bl & n' & H1 & H2 & H3 & H5 & Hbl & Hn').
  rewrite (should_approve_run self group_id user_id comment user_level b1 b2 b3 b5 bl n')
    by done.
  assert (n' = n) as -> by congruence.
  destruct b1; [done|]. destruct b2; [done|]. destruct b3; [done|].
  destruct Hcase as [Hle | [E | [E | E]]]; try congruence.
  assert ((0 <? n) = false) as -> by lia.
  simpl. by destruct b5.
Qed.

Lemma attempts_not_counted_witness :
  _fail (should_approve (H := ascii_runtime) "1001" "42" None (Some 5) Example.with_level).2
  = _fail Example.with_level.
Proof.
  apply (attempts_not_counted (H := ascii_runtime) Example.with_level "1001" "42"
           None (Some 5) 0).
  - apply (bool_decide_unpack _). vm_compute. exact I.
  - vm_compute. reflexivity.
  - left. lia.
Defined.

(** X13. Once the counter of a pair has reached the cap, the pair stays
    locked out: every later call that passes rules 1 to 3 is rejected for
    the attempt limit, however many calls came in between (the counter only
    grows, and nothing but a restart clears it). *)
Theorem over_the_cap_stays_rejected `{Runtime} (k : nat) (self : JoinHandle)
    (group_id user_id : string) (comment : option string) (user_level : option Z) (n : Z) :
  store_ok (db self) ->
  blacklisted (db self) group_id user_id = Ok false ->
  level_too_low (GroupJoinData.get_min_level (db self) group_id) user_level = Ok false ->
  hits_reject_keyword (db self) group_id comment = Ok false ->
  GroupJoinData.get_max_time (db self) group_id = VInt n ->
  0 < n ->
  n <= default 0 (_fail self !! attempt_key group_id user_id) ->
  (should_approve group_id user_id comment user_level
     (after_calls k group_id user_id comment user_level self)).1
  = Ok (false, "进群尝试次数已达上限(" +:+ pretty n +:+ "次)").
Proof.
  revert self. induction k as [|k IH]; intros self Hd H1 H2 H3 Hn Hpos Hcount.
  - simpl.
    destruct (attempt_step self group_id user_id comment user_level n)
      as (reason & E & Hr); try done.
    rewrite E. simpl. rewrite Hr by lia.
    assert ((n <? default 0 (_fail self !! attempt_key group_id user_id) + 1) = true)
      as -> by lia.
    done.
  - simpl.
    destruct (attempt_step self group_id user_id comment user_level n)
      as (reason & E & _); try done.
    rewrite E. simpl. apply IH; try done.
    simpl. rewrite lookup_insert_eq. simpl. lia.
Qed.

Lemma over_the_cap_stays_rejected_witness :
  (should_approve (H := ascii_runtime) "1001" "43" None None
     (after_calls (H := ascii_runtime) 5 "1001" "43" None None
        (with_fail {[ "1001_43" := 2 ]} Example.with_defaults))).1
  = Ok (false, "进群尝试次数已达上限(2次)").
Proof.
  apply (over_the_cap_stays_rejected (H := ascii_runtime) 5
           (with_fail {[ "1001_43" := 2 ]} Example.with_defaults)
           "1001" "43" None None 2).
  - apply (bool_decide_unpack _). vm_compute. exact I.
  - vm_compute. reflexivity.
  - vm_compute. reflexivity.
  - vm_compute. reflexivity.
  - vm_compute. reflexivity.
  - lia.
  - vm_compute. discriminate.
Defined.

(** ** should_approve: the blacklist rule *)

(** Settle a decidable statement about concrete data by evaluation. *)
Ltac by_evaluation := apply (bool_decide_unpack _); vm_compute; exact I.

Section PlainStores.
Import GroupJoinData.

Lemma only_fields_insert key v cfg :
  key ∈ field_names -> only_fields cfg -> only_fields (<[key := v]> cfg).
Proof. intros Hk Hc. by apply map_Forall_insert_2. Qed.

Lemma plain_store_save d : plain_store d -> plain_store (save d).
Proof. unfold plain_store. by rewrite save_cfg, save_default_cfg. Qed.

Lemma plain_store_ensure_group g d : plain_store d -> plain_store (ensure_group g d).
Proof.
  intros [Hs Hdef]. unfold ensure_group.
  destruct (_cfg d !! g); [done|].
  apply plain_store_save. split; [|done]. simpl. by apply map_Forall_insert_2.
Qed.

Lemma plain_store_get d g : plain_store d -> only_fields (get d g).
Proof.
  intros [Hs _]. unfold get.
  destruct (_cfg d !! g) as [cfg|] eqn:E; simpl; [exact (Hs g cfg E)|].
  apply map_Forall_empty.
Qed.

Lemma plain_store_set g key v d :
  key ∈ field_names -> plain_store d -> plain_store (set g key v d).
Proof.
  intros Hk Hd. unfold set.
  pose proof (plain_store_ensure_group g d Hd) as He.
  apply plain_store_save. split; [|apply He]. simpl.
  apply map_Forall_insert_2; [|apply He].
  apply only_fields_insert; [done|]. apply (plain_store_get _ g He).
Qed.

Lemma plain_store_init file writes config :
  file = Missing ∨ file = Corrupt -> plain_store (__init__ file writes config).
Proof.
  intros Hf. split.
  - simpl. unfold _load.
    destruct Hf as [-> | ->]; simpl; rewrite save_cfg; apply map_Forall_empty.
  - simpl. repeat (apply only_fields_insert; [by_evaluation|]).
    apply map_Forall_empty.
Qed.

End PlainStores.

(** X14. On a store whose configs have field names as their only keys --
    the store the constructor builds from a missing file, and every store
    the setters make from it -- and for a group id that is not itself a
    field name, rule 1 never fires: whoever is listed in [block_ids],
    [should_approve] does not answer 黑名单用户.  The setters keep such a
    store such. *)
Theorem blacklist_rule_never_fires `{Runtime} (self : JoinHandle)
    (group_id user_id : string) (comment : option string) (user_level : option Z)
    (g key : string) (v : value) :
  store_ok (db self) ->
  plain_store (db self) ->
  group_id ∉ field_names ->
  key ∈ field_names ->
  blacklisted (db self) group_id user_id = Ok false
  ∧ (should_approve group_id user_id comment user_level self).1 ≠ Ok (false, "黑名单用户")
  ∧ plain_store (GroupJoinData.set g key v (db self))
  ∧ plain_store (db (should_approve group_id user_id comment user_level self).2).
Proof.
  intros Hd Hp Hg Hk.
  assert (blacklisted (db self) group_id user_id = Ok false) as H1.
  { apply blacklisted_needs_own_key.
    destruct (GroupJoinData.get (db self) group_id !! group_id) as [x|] eqn:E; [|done].
    destruct Hg. exact (plain_store_get (db self) group_id Hp group_id x E). }
  split; [exact H1|].
  destruct (should_approve_cases self group_id user_id comment user_level Hd)
    as (b1 & b2 & b3 & b5 & bl & n & H1' & H2 & H3 & H5 & Hbl & Hn).
  assert (b1 = false) as -> by congruence.
  rewrite (should_approve_run self group_id user_id comment user_level
             false b2 b3 b5 bl n) by done.
  split; [|split; [by apply plain_store_set|]].
  - destruct b2; [simpl; discriminate|]. destruct b3; [simpl; discriminate|].
    simpl. destruct (_ && _); [simpl; discriminate|]. destruct b5; simpl; discriminate.
  - destruct b2; [done|]. destruct b3.
    { simpl. apply plain_store_set; [|done]. by_evaluation. }
    simpl. destruct (0 <? n); simpl; [destruct (n <? _)|]; destruct b5; done.
Qed.

Lemma blacklist_rule_never_fires_witness :
  (should_approve (H := ascii_runtime) "1001" "42" None None Example.with_blacklist).1
  ≠ Ok (false, "黑名单用户").
Proof.
  destruct (blacklist_rule_never_fires (H := ascii_runtime) Example.with_blacklist
              "1001" "42" None None "1001" "switch" (VBool true)) as (_ & E & _).
  - apply (bool_decide_unpack _). vm_compute. exact I.
  - apply plain_store_set; [by_evaluation|].
    apply plain_store_init. by left.
  - by_evaluation.
  - by_evaluation.
  - exact E.
Defined.

(** ** Coroutines on every platform *)

Section Always.
Context {R : Type}.

Lemma always_mono (Q Q' : call -> Prop) (P P' : R -> Prop) (p : io R) :
  (forall c, Q c -> Q' c) -> (forall r, P r -> P' r) -> always Q P p -> always Q' P' p.
Proof.
  intros HQ HP Hp. induction Hp as [r Hr | c k Hc _ IH].
  - apply always_done. by apply HP.
  - apply always_await; [by apply HQ | exact IH].
Qed.

(** What [always] promises holds of every run. *)
Lemma always_run_from (Q : call -> Prop) (P : R -> Prop) (env : platform)
    (p : io R) (past : list call) :
  always Q P p -> Forall Q past ->
  P (run_from env past p).1 ∧ Forall Q (run_from env past p).2.
Proof.
  intros Hp. revert past. induction Hp as [r Hr | c k Hc _ IH]; intros past Hpast.
  - by split.
  - simpl. apply IH. apply Forall_app. split; [done|]. by apply Forall_singleton.
Qed.

Lemma always_run (Q : call -> Prop) (P : R -> Prop) (env : platform) (p : io R) :
  always Q P p -> P (run env p).1 ∧ Forall Q (run env p).2.
Proof. intros Hp. by apply always_run_from. Qed.

End Always.

Lemma always_io_bind {R S} (Q : call -> Prop) (P' : R -> Prop) (P : S -> Prop)
    (p : io R) (k : R -> io S) :
  always Q P' p -> (forall r, P' r -> always Q P (k r)) -> always Q P (io_bind p k).
Proof.
  intros Hp Hk. induction Hp as [r Hr | c k' Hc _ IH]; simpl.
  - by apply Hk.
  - apply always_await; [done | exact IH].
Qed.

(** [mbind]: the continuation runs on a result, an exception passes through. *)
Lemma always_mbind {A B} (Q : call -> Prop) (P' : res A * JoinHandle -> Prop)
    (P : res B * JoinHandle -> Prop) (m : M A) (k : A -> M B) (self : JoinHandle) :
  always Q P' (m self) ->
  (forall a self', P' (Ok a, self') -> always Q P (k a self')) ->
  (forall e self', P' (Raise e, self') -> P (Raise e, self')) ->
  always Q P (mbind m k self).
Proof.
  intros Hm Hk He. unfold mbind.
  apply (always_io_bind Q P' P); [done|].
  intros [[a | e] self'] Hr; [by apply Hk|].
  apply always_done. by apply He.
Qed.

Lemma always_try_except (Q : call -> Prop) (P' : res unit * JoinHandle -> Prop)
    (P : res unit * JoinHandle -> Prop) (m : M unit) (self : JoinHandle) :
  always Q P' (m self) ->
  (forall r self', P' (r, self') -> P (Ok tt, self')) ->
  always Q P (try_except m self).
Proof.
  intros Hm HP. unfold try_except.
  apply (always_io_bind Q P' P); [done|].
  intros [r self'] Hr. apply always_done. by apply (HP r).
Qed.

(** ** _send_admin *)

Section SendAdmin.
Context `{Runtime}.

Lemma send_to_admins_always (ids : list string) (message : string) (self : JoinHandle) :
  always (fun c => ∃ uid, c = send_private_msg uid message)
         (fun r => r = (Ok tt, self))
         (send_to_admins ids message self).
Proof.
  induction ids as [|admin_id rest IH]; simpl.
  - by apply always_done.
  - apply (always_mbind _ (fun r => r = (Ok tt, self))).
    + destruct (str_isdigit admin_id); [|by apply always_done].
      apply (always_try_except _ (fun r => r.2 = self));
        [|intros r s' Hs; simpl in Hs; by subst].
      unfold mbind, sync, lift, await. simpl.
      destruct (int_of_str admin_id) as [uid | e]; simpl; [|by apply always_done].
      apply always_await; [by eexists|]. intros a. by apply always_done.
    + intros [] self' [= ->]. exact IH.
    + intros e self' [=].
Qed.

Lemma send_to_admins_skips (env : platform) (past : list call) (ids : list string)
    (message : string) (self : JoinHandle) :
  Forall (fun admin_id => str_isdigit admin_id = false) ids ->
  run_from env past (send_to_admins ids message self) = ((Ok tt, self), past).
Proof.
  induction 1 as [|admin_id rest Hd _ IH]; simpl; [done|].
  unfold mbind. rewrite Hd. simpl. exact IH.
Qed.

End SendAdmin.

(** X15. [_send_admin] is best effort: whatever the platform answers it
    returns normally and leaves [self] as it was, every call it makes is a
    private message carrying the given text, and an admin id that is not
    made of digits gets none (with no such id, no call is made at all). *)
Theorem send_admin_never_fails `{Runtime} (env : platform) (message : string)
    (self : JoinHandle) :
  (run env (_send_admin message self)).1 = (Ok tt, self)
  ∧ Forall (fun c => ∃ uid, c = send_private_msg uid message)
      (run env (_send_admin message self)).2
  ∧ (Forall (fun admin_id => str_isdigit admin_id = false) (admin_ids self) ->
     (run env (_send_admin message self)).2 = []).
Proof.
  pose proof (always_run _ _ env _ (send_to_admins_always (admin_ids self) message self))
    as [Hr Hc].
  split; [exact Hr|]. split; [exact Hc|].
  intros Hnone. unfold run, _send_admin.
  by rewrite (send_to_admins_skips env [] _ message self Hnone).
Qed.

Lemma send_admin_never_fails_witness :
  (run Example.platform_ok
     (_send_admin (H := ascii_runtime) "hi"
        (JoinHandle__init__ Example.conf Missing Written ["root"; "admin"]))).2 = [].
Proof.
  apply (send_admin_never_fails (H := ascii_runtime) Example.platform_ok "hi"
           (JoinHandle__init__ Example.conf Missing Written ["root"; "admin"])).
  by_evaluation.
Defined.

(** ** Commands *)

Lemma setters_read_back_aux (d : GroupJoinData.t) (g : string) (words : list string) :
  GroupJoinData.get_accept_keywords (GroupJoinData.set_accept_keywords g words d) g
    = VList words
  ∧ GroupJoinData.get_reject_keywords (GroupJoinData.set_reject_keywords g words d) g
    = VList words
  ∧ GroupJoinData.get_block_ids (GroupJoinData.set_block_ids g (VList words) d) g
    = VList words.
Proof.
  unfold GroupJoinData.get_accept_keywords, GroupJoinData.set_accept_keywords,
    GroupJoinData.get_reject_keywords, GroupJoinData.set_reject_keywords,
    GroupJoinData.get_block_ids, GroupJoinData.set_block_ids.
  by rewrite !get_set.
Qed.

(** X16. A command sent without an argument only reports: the three list
    commands with nothing after the keyword, and the two threshold commands
    without a number, send one message showing the stored value and leave
    [self] as it was, on every platform. *)
Theorem queries_change_nothing `{Runtime} (env : platform) (event : AiocqhttpMessageEvent)
    (self : JoinHandle) :
  let gid := get_group_id event in
  let shows (p : io (res unit * JoinHandle)) (msg : string) :=
    run env p = ((env [] (send msg), self), [send msg]) in
  (str_split (removeprefix "进群白词" (message_str event)) = [] ->
   shows (handle_accept_keyword event self)
     ("本群的进群关键词：" +:+ py_str (GroupJoinData.get_accept_keywords (db self) gid)))
  ∧ (str_split (removeprefix "进群黑词" (message_str event)) = [] ->
     shows (handle_reject_keywords event self)
       ("本群的进群黑名单关键词：" +:+ py_str (GroupJoinData.get_reject_keywords (db self) gid)))
  ∧ (str_split (removeprefix "进群黑名单" (message_str event)) = [] ->
     shows (handle_reject_ids event self)
       ("本群的进群黑名单：" +:+ py_str (GroupJoinData.get_block_ids (db self) gid)))
  ∧ shows (handle_level_threshold event None self)
      ("本群的进群等级门槛: " +:+ py_str (GroupJoinData.get_min_level (db self) gid) +:+ "级")
  ∧ shows (handle_join_time event None self)
      ("本群的进群最多可尝试 " +:+ py_str (GroupJoinData.get_max_time (db self) gid) +:+ " 次").
Proof.
  intros gid shows. unfold shows.
  split; [|split; [|split; [|split]]].
  - intros E. unfold handle_accept_keyword. by rewrite E.
  - intros E. unfold handle_reject_keywords. by rewrite E.
  - intros E. unfold handle_reject_ids. by rewrite E.
  - reflexivity.
  - reflexivity.
Qed.

(** X17. A list command with arguments replaces the stored list by the
    words given, whatever was stored (the reject-keyword command replaces
    too, though its reply says 新增), and the new list is in place whether
    or not the reply can be sent.  The commands for keywords reply once;
    the blacklist command sends nothing. *)
Theorem list_commands_overwrite `{Runtime} (env : platform) (event : AiocqhttpMessageEvent)
    (self : JoinHandle) (words : list string) :
  words ≠ [] ->
  let gid := get_group_id event in
  (str_split (removeprefix "进群白词" (message_str event)) = words ->
   let '((_, self'), calls) := run env (handle_accept_keyword event self) in
   GroupJoinData.get_accept_keywords (db self') gid = VList words
   ∧ self' = with_db (GroupJoinData.set_accept_keywords gid words (db self)) self
   ∧ calls = [send ("本群的进群关键词已设置为：" +:+ repr_list words)])
  ∧ (str_split (removeprefix "进群黑词" (message_str event)) = words ->
     let '((_, self'), calls) := run env (handle_reject_keywords event self) in
     GroupJoinData.get_reject_keywords (db self') gid = VList words
     ∧ self' = with_db (GroupJoinData.set_reject_keywords gid words (db self)) self
     ∧ calls = [send ("新增进群黑名单关键词：" +:+ repr_list words)])
  ∧ (str_split (removeprefix "进群黑名单" (message_str event)) = words ->
     let '((r, self'), calls) := run env (handle_reject_ids event self) in
     GroupJoinData.get_block_ids (db self') gid = VList words
     ∧ self' = with_db (GroupJoinData.set_block_ids gid (VList words) (db self)) self
     ∧ r = Ok tt ∧ calls = []).
Proof.
  intros Hne gid.
  pose proof (setters_read_back_aux (db self) gid words) as (Ea & Er & Eb).
  split; [|split].
  - intros E. unfold handle_accept_keyword. rewrite E.
    rewrite bool_decide_eq_false_2 by done. simpl. done.
  - intros E. unfold handle_reject_keywords. rewrite E.
    rewrite bool_decide_eq_false_2 by done. simpl. done.
  - intros E. unfold handle_reject_ids. rewrite E.
    rewrite bool_decide_eq_false_2 by done. simpl. done.
Qed.

Lemma list_commands_overwrite_witness :
  GroupJoinData.get_block_ids
    (db (run Example.platform_ok
           (handle_reject_ids (H := ascii_runtime)
              {| raw_message := None; get_group_id := "1001"; get_self_id := "10000";
                 message_str := "进群黑名单 7 8" |} Example.with_blacklist)).1.2) "1001"
  = VList ["7"; "8"].
Proof.
  pose proof (list_commands_overwrite (H := ascii_runtime) Example.platform_ok
                {| raw_message := None; get_group_id := "1001"; get_self_id := "10000";
                   message_str := "进群黑名单 7 8" |} Example.with_blacklist ["7"; "8"])
    as Hall.
  destruct Hall as (_ & _ & Hids); [discriminate|].
  specialize (Hids eq_refl).
  destruct (run _ _) as [[r self'] calls]. by destruct Hids as (E & _).
Defined.

Lemma counters_kept_without_cap `{Runtime} (self : JoinHandle) (g u : string)
    (c : option string) (lvl : option Z) (n : Z) :
  store_ok (db self) ->
  GroupJoinData.get_max_time (db self) g = VInt n ->
  n <= 0 ->
  _fail (should_approve g u c lvl self).2 = _fail self.
Proof.
  intros Hd Hn Hle.
  destruct (should_approve_cases self g u c lvl Hd)
    as (b1 & b2 & b3 & b5 & bl & n' & H1 & H2 & H3 & H5 & Hbl & Hn').
  rewrite (should_approve_run self g u c lvl b1 b2 b3 b5 bl n') by done.
  assert (n' = n) as -> by congruence.
  destruct b1; [done|]. destruct b2; [done|]. destruct b3; [done|].
  assert ((0 <? n) = false) as -> by lia.
  simpl. by destruct b5.
Qed.

(** X18. A threshold command with a number of 0 or less switches its rule
    off for the group, negative numbers included: after the level command
    no level is too low, and after the attempt command [should_approve]
    counts no attempt for the group.  Both commands then reply
    已解除本群的进群等级限制.  With any number, the number is stored as
    given. *)
Theorem nonpositive_threshold_switches_rule_off `{Runtime} (env : platform)
    (event : AiocqhttpMessageEvent) (self : JoinHandle) (n : Z) :
  store_ok (db self) ->
  let gid := get_group_id event in
  let leveled := run env (handle_level_threshold event (Some n) self) in
  let capped := run env (handle_join_time event (Some n) self) in
  GroupJoinData.get_min_level (db leveled.1.2) gid = VInt n
  ∧ GroupJoinData.get_max_time (db capped.1.2) gid = VInt n
  ∧ (n <= 0 ->
     leveled.2 = [send "已解除本群的进群等级限制"]
     ∧ capped.2 = [send "已解除本群的进群等级限制"]
     ∧ (∀ user_level,
          level_too_low (GroupJoinData.get_min_level (db leveled.1.2) gid) user_level
          = Ok false)
     ∧ (∀ user_id comment user_level,
          _fail (should_approve gid user_id comment user_level capped.1.2).2
          = _fail capped.1.2)).
Proof.
  intros Hd gid leveled capped.
  assert (leveled.1.2 = with_db (GroupJoinData.set_min_level gid n (db self)) self) as E1
    by reflexivity.
  assert (capped.1.2 = with_db (GroupJoinData.set_max_time gid n (db self)) self) as E2
    by reflexivity.
  assert (GroupJoinData.get_min_level (db leveled.1.2) gid = VInt n) as Hlevel.
  { rewrite E1. simpl. unfold GroupJoinData.get_min_level, GroupJoinData.set_min_level.
    by rewrite get_set. }
  assert (GroupJoinData.get_max_time (db capped.1.2) gid = VInt n) as Hcap.
  { rewrite E2. simpl. unfold GroupJoinData.get_max_time, GroupJoinData.set_max_time.
    by rewrite get_set. }
  split; [exact Hlevel|]. split; [exact Hcap|].
  intros Hle.
  assert ((0 <? n) = false) as Hn by lia.
  split; [|split; [|split]].
  - unfold leveled, handle_level_threshold, run, mbind, sync, db_do, await. simpl.
    by rewrite Hn.
  - unfold capped, handle_join_time, run, mbind, sync, db_do, await. simpl.
    by rewrite Hn.
  - intros lvl. rewrite Hlevel, level_too_low_spec.
    destruct lvl; [|done]. by rewrite Hn.
  - intros u c lvl. apply (counters_kept_without_cap _ gid u c lvl n); [|done|done].
    rewrite E2. simpl. by apply store_ok_set.
Qed.

Lemma nonpositive_threshold_switches_rule_off_witness :
  level_too_low
    (GroupJoinData.get_min_level
       (db (run Example.platform_ok
              (handle_level_threshold (H := ascii_runtime) Example.join_request (Some (-3))
                 Example.with_level)).1.2) "1001") (Some 1)
  = Ok false.
Proof.
  destruct (nonpositive_threshold_switches_rule_off (H := ascii_runtime)
              Example.platform_ok Example.join_request Example.with_level (-3))
    as (_ & _ & Hoff).
  - by_evaluation.
  - destruct Hoff as (_ & _ & Hlevel & _); [lia|]. apply Hlevel.
Defined.

(** ** Splitting text *)

Section Split.

(** stdpp keeps [simpl] from unfolding [+:+]; here it must run through the
    literal parts of a text. *)
#[local] Arguments String.append !_ _ / : simpl nomatch.

Lemma append_empty_r (a : string) : a +:+ "" = a.
Proof. induction a as [|c a IH]; simpl; [done|]. by rewrite IH. Qed.

Lemma append_assoc (a b c : string) : (a +:+ b) +:+ c = a +:+ (b +:+ c).
Proof. induction a as [|x a IH]; simpl; [done|]. by rewrite IH. Qed.

(** A text in which the separator does not occur is one piece. *)
Lemma split_from_absent (sep a cur : string) :
  str_in sep a = false -> split_from sep 0 cur a = [cur +:+ a].
Proof.
  revert cur. induction a as [|c a IH]; intros cur Hno.
  - by rewrite append_empty_r.
  - change (starts_with sep (String c a) || str_in sep a = false) in Hno.
    apply orb_false_iff in Hno as [Hhere Hlater].
    cbn [split_from]. rewrite Hhere, (IH _ Hlater), append_assoc. done.
Qed.

(** Up to the first newline is the first line. *)
Lemma split_from_line (a cur rest : string) :
  str_in newline a = false ->
  split_from newline 0 cur (a +:+ newline +:+ rest)
  = (cur +:+ a) :: split_from newline 0 "" rest.
Proof.
  revert cur. induction a as [|c a IH]; intros cur Hno.
  - by rewrite append_empty_r.
  - change (starts_with newline (String c a) || str_in newline a = false) in Hno.
    apply orb_false_iff in Hno as [Hhere Hlater].
    change ((String c a) +:+ newline +:+ rest) with (String c (a +:+ newline +:+ rest)).
    cbn [split_from].
    change (starts_with newline (String c (a +:+ newline +:+ rest)))
      with (starts_with newline (String c a)).
    rewrite Hhere, (IH _ Hlater), append_assoc. done.
Qed.

(** A notification is its four labelled lines, then nothing or a newline
    and more. *)
Lemma join_notice_shape (nick user_id flag : string) (user_level : option Z)
    (comment : option string) :
  ∃ tail,
    join_notice nick user_id flag user_level comment
    = "【进群申请】批准/驳回：" +:+ newline +:+ "昵称：" +:+ nick +:+ newline
      +:+ "QQ：" +:+ user_id +:+ newline +:+ "flag：" +:+ flag +:+ tail
    ∧ (tail = "" ∨ ∃ r, tail = newline +:+ r).
Proof.
  unfold join_notice. cbv zeta.
  destruct user_level as [n|]; destruct (truthy_str comment).
  - eexists. split; [by rewrite !append_assoc|]. right. by eexists.
  - eexists. split; [by rewrite !append_assoc|]. right. by eexists.
  - eexists. split; [by rewrite !append_assoc|]. right. by eexists.
  - exists "". split; [by rewrite append_empty_r|]. by left.
Qed.

(** The lines of a notification: the heading, then name, id and flag. *)
Lemma join_notice_lines (nick user_id flag : string) (user_level : option Z)
    (comment : option string) :
  str_in newline nick = false ->
  str_in newline user_id = false ->
  str_in newline flag = false ->
  ∃ more,
    split_from newline 0 "" (join_notice nick user_id flag user_level comment)
    = "【进群申请】批准/驳回：" :: ("昵称：" +:+ nick) :: ("QQ：" +:+ user_id)
        :: ("flag：" +:+ flag) :: more.
Proof.
  intros Hn Hu Hf.
  destruct (join_notice_shape nick user_id flag user_level comment)
    as (tail & -> & Htail).
  rewrite (split_from_line "【进群申请】批准/驳回：" "") by reflexivity.
  rewrite <- (append_assoc "昵称：" nick).
  rewrite (split_from_line ("昵称：" +:+ nick) "").
  2:{ simpl. exact Hn. }
  rewrite <- (append_assoc "QQ：" user_id).
  rewrite (split_from_line ("QQ：" +:+ user_id) "").
  2:{ simpl. exact Hu. }
  assert (str_in newline ("flag：" +:+ flag) = false) as Hf' by (simpl; exact Hf).
  destruct Htail as [-> | [r ->]].
  - rewrite append_empty_r, (split_from_absent _ _ _ Hf'). by eexists.
  - rewrite <- (append_assoc "flag：" flag).
    rewrite (split_from_line ("flag：" +:+ flag) "") by exact Hf'. by eexists.
Qed.

Lemma join_notice_heading (nick user_id flag : string) (user_level : option Z)
    (comment : option string) :
  let text := join_notice nick user_id flag user_level comment in
  truthy_str (Some text) = true ∧ str_in "【进群申请】" text = true.
Proof.
  destruct (join_notice_shape nick user_id flag user_level comment) as (tail & E & _).
  simpl. rewrite E. split; reflexivity.
Qed.

(** The text after the first fullwidth colon of a labelled line. *)
Lemma after_colon_name (nick : string) :
  str_in "：" nick = false -> split_from "：" 0 "" ("昵称：" +:+ nick) = ["昵称"; nick].
Proof. intros Hno. simpl. by rewrite (split_from_absent _ _ _ Hno). Qed.

Lemma after_colon_flag (flag : string) :
  str_in "：" flag = false -> split_from "：" 0 "" ("flag：" +:+ flag) = ["flag"; flag].
Proof. intros Hno. simpl. by rewrite (split_from_absent _ _ _ Hno). Qed.

End Split.

(** ** Approving from a quoted notification *)

(** X19. The notification of a join request can be answered by quoting it:
    when the requester's nickname and the flag hold no newline and no
    fullwidth colon, and the user id no newline, [set_approve] on the text
    of the notification resolves the request with the very flag of the
    notification, [sub_type] add, and the verdict and reason given, and
    names the requester in its reply; when the platform refuses the call,
    the reply is 这条申请处理过了或者格式不对 and nothing is raised. *)
Theorem quoted_notice_is_resolved (env : platform) (nick user_id flag : string)
    (user_level : option Z) (comment : option string) (extra : string) (approve : bool) :
  str_in newline nick = false ->
  str_in "：" nick = false ->
  str_in newline user_id = false ->
  str_in newline flag = false ->
  str_in "：" flag = false ->
  let text := join_notice nick user_id flag user_level comment in
  let request := set_group_add_request flag "add" approve extra in
  let reply :=
    match env [] request with
    | Ok _ =>
        if approve
        then "已同意" +:+ nick +:+ "进群"
        else "已拒绝" +:+ nick +:+ "进群"
             +:+ (if negb (bool_decide (extra = "")) then newline +:+ "理由：" +:+ extra else "")
    | Raise _ => "这条申请处理过了或者格式不对"
    end in
  run env (set_approve (Some text) extra approve) = (Returns (Some reply), [request]).
Proof.
  intros Hn1 Hn2 Hu Hf1 Hf2 text request reply.
  destruct (join_notice_heading nick user_id flag user_level comment) as [Htrue Hhead].
  destruct (join_notice_lines nick user_id flag user_level comment Hn1 Hu Hf1)
    as [more Hlines].
  unfold set_approve. fold text in Htrue, Hhead, Hlines. rewrite Htrue.
  cbn [negb default]. unfold split_on at 1.
  rewrite bool_decide_eq_false_2 by discriminate.
  change (id text) with text.
  rewrite Hlines. cbn [of_res obind]. rewrite Hhead.
  cbn [andb List.length Nat.leb subscript lookup list_lookup obind].
  unfold split_on.
  rewrite !(bool_decide_eq_false_2 ("：" = "")) by discriminate.
  rewrite (after_colon_name nick Hn2), (after_colon_flag flag Hf2).
  cbn [of_res obind subscript lookup list_lookup].
  unfold run. cbn [run_from]. fold request.
  unfold reply. by destruct (env [] request).
Qed.

Lemma quoted_notice_is_resolved_witness :
  run Example.platform_ok
    (set_approve (Some (join_notice "Bob" "42" "f1" (Some 5) (Some "hi"))) "" true)
  = (Returns (Some "已同意Bob进群"), [set_group_add_request "f1" "add" true ""]).
Proof.
  by apply (quoted_notice_is_resolved Example.platform_ok "Bob" "42" "f1" (Some 5)
              (Some "hi") "" true).
Defined.

(** Enter [set_approve] on a non-empty quoted text, down to its test. *)
Ltac enter_set_approve text Hne :=
  unfold set_approve, truthy_str;
  rewrite (bool_decide_eq_false_2 (text = "")) by exact Hne;
  cbn [negb default from_option]; change (id text) with text;
  unfold split_on at 1;
  rewrite (bool_decide_eq_false_2 (newline = "")) by discriminate;
  cbn [of_res obind].

(** X20. Quoting something that is not a notification: with no quoted text
    (or an empty one) [set_approve] answers 未引用任何【进群申请】 and calls
    nothing; with a text that lacks the heading 【进群申请】 or has fewer
    than four lines it returns [None] and calls nothing, so that
    [agree_add_group] and [refuse_add_group] end without a word. *)
Theorem quoting_other_text_is_silent (text extra : string) (approve : bool) :
  text ≠ "" ->
  str_in "【进群申请】" text = false
  ∨ (List.length (split_from newline 0 "" text) < 4)%nat ->
  set_approve None extra approve = Done (Returns (Some "未引用任何【进群申请】"))
  ∧ set_approve (Some "") extra approve = Done (Returns (Some "未引用任何【进群申请】"))
  ∧ set_approve (Some text) extra approve = Done (Returns None)
  ∧ agree_add_group (Some text) extra = Done (Returns tt)
  ∧ refuse_add_group (Some text) extra = Done (Returns tt).
Proof.
  intros Hne Hcase.
  assert (∀ a, set_approve (Some text) extra a = Done (Returns None)) as E.
  { intros a. enter_set_approve text Hne.
    destruct Hcase as [-> | Hshort]; [done|].
    assert ((4 <=? List.length (split_from newline 0 "" text))%nat = false) as ->
      by (apply Nat.leb_gt; lia).
    by rewrite andb_false_r. }
  split; [done|]. split; [done|]. split; [apply E|].
  unfold agree_add_group, refuse_add_group, send_reply. by rewrite !E.
Qed.

Lemma quoting_other_text_is_silent_witness :
  run Example.platform_ok (agree_add_group (Some "hello") "") = (Returns tt, []).
Proof.
  destruct (quoting_other_text_is_silent "hello" "" true) as (_ & _ & _ & E & _).
  - discriminate.
  - left. reflexivity.
  - by rewrite E.
Defined.

(** X21. A quoted text with the heading and four lines or more whose second
    line has no fullwidth colon makes [set_approve] raise [IndexError],
    before any call to the platform: the subscript [[1]] is taken outside
    the [try], so the error reaches the caller of [agree_add_group] and
    [refuse_add_group]. *)
Theorem malformed_notice_raises (text extra : string) (approve : bool)
    (lines : list string) (line1 : string) :
  str_in "【进群申请】" text = true ->
  split_from newline 0 "" text = lines ->
  (4 <= List.length lines)%nat ->
  lines !! 1%nat = Some line1 ->
  str_in "：" line1 = false ->
  set_approve (Some text) extra approve = Done (Raises IndexError)
  ∧ agree_add_group (Some text) extra = Done (Raises IndexError)
  ∧ refuse_add_group (Some text) extra = Done (Raises IndexError).
Proof.
  intros Hhead Hlines Hlen Hline Hno.
  assert (text ≠ "") as Hne by (intros ->; discriminate Hhead).
  assert (∀ a, set_approve (Some text) extra a = Done (Raises IndexError)) as E.
  { intros a. enter_set_approve text Hne. rewrite Hlines, Hhead.
    assert ((4 <=? List.length lines)%nat = true) as -> by (apply Nat.leb_le; lia).
    cbn [andb]. unfold subscript at 1. rewrite Hline. cbn [obind].
    unfold split_on at 1. rewrite (bool_decide_eq_false_2 ("：" = "")) by discriminate.
    by rewrite (split_from_absent _ _ _ Hno). }
  split; [apply E|].
  unfold agree_add_group, refuse_add_group, send_reply. by rewrite !E.
Qed.

Lemma malformed_notice_raises_witness :
  run Example.platform_ok
    (refuse_add_group
       (Some ("【进群申请】" +:+ newline +:+ "a" +:+ newline +:+ "b" +:+ newline +:+ "c")) "no")
  = (Raises IndexError, []).
Proof.
  destruct (malformed_notice_raises
              ("【进群申请】" +:+ newline +:+ "a" +:+ newline +:+ "b" +:+ newline +:+ "c")
              "no" false ["【进群申请】"; "a"; "b"; "c"] "a") as (_ & _ & E).
  - reflexivity.
  - reflexivity.
  - simpl. lia.
  - reflexivity.
  - reflexivity.
  - by rewrite E.
Defined.

(** ** event_monitoring *)

Section Monitoring.
Context `{Runtime}.
Import GroupJoinData.

(** A switch that reads as on is a stored one: the fallback is [False]. *)
Lemma switch_on_is_stored d g : truthy (get_switch d g) = true -> is_Some (_cfg d !! g).
Proof.
  unfold get_switch, get. destruct (_cfg d !! g) as [cfg|]; [by eexists|].
  simpl. rewrite lookup_empty. discriminate.
Qed.

Lemma ensure_group_stored d g : is_Some (_cfg d !! g) -> ensure_group g d = d.
Proof. intros [cfg E]. unfold ensure_group. by rewrite E. Qed.

Lemma with_db_same self : with_db (db self) self = self.
Proof. by destruct self. Qed.

End Monitoring.

(** X22. A group that has no stored config is not monitored, whatever
    [default_switch] says: [event_monitoring] is done at once, awaits
    nothing and leaves [self] as it was (no config is created for the
    group).  The same holds for an event whose raw message is not a dict. *)
Theorem unconfigured_group_is_ignored `{Runtime} (event : AiocqhttpMessageEvent)
    (self : JoinHandle) :
  match raw_message event with
  | None => True
  | Some raw => GroupJoinData._cfg (db self) !! default "" (raw !! "group_id") = None
  end ->
  event_monitoring event self = Done (Ok tt, self).
Proof.
  unfold event_monitoring. destruct (raw_message event) as [raw|]; [|done].
  intros Hnew. unfold mbind, sync, db_get. simpl.
  unfold GroupJoinData.get_switch. rewrite (get_empty _ _ Hnew), lookup_empty. done.
Qed.

Lemma unconfigured_group_is_ignored_witness :
  default_switch (jconf Example.fresh) = true
  ∧ run Example.platform_ok
      (event_monitoring (H := ascii_runtime) Example.join_request Example.fresh)
    = ((Ok tt, Example.fresh), []).
Proof.
  split; [reflexivity|].
  rewrite (unconfigured_group_is_ignored (H := ascii_runtime) Example.join_request
             Example.fresh); [reflexivity|].
  vm_compute. reflexivity.
Defined.

(** How [mbind] runs each kind of step. *)
Section Steps.
Context {A B : Type}.

Lemma mbind_sync (m : St A) (k : A -> M B) (self : JoinHandle) :
  mbind (sync m) k self
  = match m self with
    | (Ok a, self') => k a self'
    | (Raise e, self') => Done (Raise e, self')
    end.
Proof. unfold mbind, sync. simpl. by destruct (m self) as [[a|e] self']. Qed.

Lemma mbind_db_get (getter : GroupJoinData.t -> string -> A) (g : string)
    (k : A -> M B) (self : JoinHandle) :
  mbind (sync (db_get getter g)) k self = k (getter (db self) g) self.
Proof. reflexivity. Qed.

Lemma mbind_lift (r : res A) (k : A -> M B) (self : JoinHandle) :
  mbind (sync (lift r)) k self
  = match r with
    | Ok a => k a self
    | Raise e => Done (Raise e, self)
    end.
Proof. by destruct r. Qed.

End Steps.

Lemma mbind_db_do {B} (setter : GroupJoinData.t -> GroupJoinData.t) (k : unit -> M B)
    (self : JoinHandle) :
  mbind (sync (db_do setter)) k self = k tt (with_db (setter (db self)) self).
Proof. reflexivity. Qed.

Lemma mbind_jconf {B} (k : join_config -> M B) (self : JoinHandle) :
  mbind (sync (fun s => (Ok (jconf s), s))) k self = k (jconf self) self.
Proof. reflexivity. Qed.

Lemma mbind_await {B} (c : call) (k : answer c -> M B) (self : JoinHandle) :
  mbind (await c) k self
  = Await c (fun a => match a with
                      | Ok x => k x self
                      | Raise e => Done (Raise e, self)
                      end).
Proof. reflexivity. Qed.

(** [event_monitoring] on a join request for a group whose switch is on, up
    to the lookup of the requester. *)
Lemma event_monitoring_request `{Runtime} (event : AiocqhttpMessageEvent)
    (raw : gmap string string) (self : JoinHandle) :
  raw_message event = Some raw ->
  truthy (GroupJoinData.get_switch (db self) (default "" (raw !! "group_id"))) = true ->
  raw !! "post_type" = Some "request" ->
  raw !! "request_type" = Some "group" ->
  raw !! "sub_type" = Some "add" ->
  let group_id := default "" (raw !! "group_id") in
  let user_id := default "" (raw !! "user_id") in
  let comment := raw !! "comment" in
  let flag := default "" (raw !! "flag") in
  event_monitoring event self
  = match int_of_str user_id with
    | Raise e => Done (Raise e, self)
    | Ok uid =>
        Await (get_stranger_info uid) (fun a =>
          match a with
          | Raise e => Done (Raise e, self)
          | Ok info =>
              let user_level := or_int (qqLevel info) (level info) in
              let notice :=
                join_notice (or_str (nickname info) "未知昵称") user_id flag user_level
                  comment in
              mbind (if admin_audit (jconf self) then _send_admin notice
                     else await (send notice))
                (fun _ =>
                   let! (approve, reason) :=
                     sync (should_approve group_id user_id comment user_level) in
                   let! _ := await (set_group_add_request flag "add" approve
                                      (if negb approve then reason else "")) in
                   await (send ("已自动" +:+ (if approve then "批准" else "驳回")
                                +:+ ": " +:+ reason))) self
          end)
    end.
Proof.
  intros Hraw Hon Hpost Hreq Hsub group_id user_id comment flag.
  unfold event_monitoring. rewrite Hraw. cbv zeta.
  subst group_id user_id comment flag.
  rewrite mbind_db_get. rewrite Hon. cbn [negb].
  rewrite mbind_db_do.
  rewrite (ensure_group_stored _ _ (switch_on_is_stored _ _ Hon)), with_db_same.
  rewrite mbind_jconf.
  rewrite !bool_decide_eq_true_2 by done. cbn [andb].
  rewrite mbind_lift.
  destruct (int_of_str (default "" (raw !! "user_id"))) as [uid|e]; [|done].
  rewrite mbind_await. reflexivity.
Qed.

(** X23. A join request for a group whose switch is on, on a platform that
    answers: [event_monitoring] looks the requester up, sends the
    notification (to the group, when [admin_audit] is off) before the
    verdict is computed, resolves the request with the verdict of
    [should_approve] -- the flag of the event, [sub_type] add, and the
    reason only on a rejection -- and then reports the verdict with its
    reason; [self] ends as [should_approve] left it. *)
Theorem join_request_is_answered `{Runtime} (env : platform)
    (event : AiocqhttpMessageEvent) (raw : gmap string string) (self self' : JoinHandle)
    (uid : Z) (info : stranger_info) (approve : bool) (reason : string) :
  let group_id := default "" (raw !! "group_id") in
  let user_id := default "" (raw !! "user_id") in
  let comment := raw !! "comment" in
  let flag := default "" (raw !! "flag") in
  let user_level := or_int (qqLevel info) (level info) in
  let lookup := get_stranger_info uid in
  let notice :=
    send (join_notice (or_str (nickname info) "未知昵称") user_id flag user_level comment) in
  let verdict :=
    set_group_add_request flag "add" approve (if negb approve then reason else "") in
  let report :=
    send ("已自动" +:+ (if approve then "批准" else "驳回") +:+ ": " +:+ reason) in
  raw_message event = Some raw ->
  truthy (GroupJoinData.get_switch (db self) group_id) = true ->
  raw !! "post_type" = Some "request" ->
  raw !! "request_type" = Some "group" ->
  raw !! "sub_type" = Some "add" ->
  admin_audit (jconf self) = false ->
  int_of_str user_id = Ok uid ->
  env [] lookup = Ok info ->
  env [lookup] notice = Ok tt ->
  should_approve group_id user_id comment user_level self = (Ok (approve, reason), self') ->
  env [lookup; notice] verdict = Ok tt ->
  run env (event_monitoring event self)
  = ((env [lookup; notice; verdict] report, self'), [lookup; notice; verdict; report]).
Proof.
  intros group_id user_id comment flag user_level lookup notice verdict report
    Hraw Hon Hpost Hreq Hsub Haudit Hint Hinfo Hnotice Happrove Hverdict.
  rewrite (event_monitoring_request event raw self Hraw Hon Hpost Hreq Hsub).
  fold user_id. rewrite Hint.
  unfold run. cbn [run_from app]. fold lookup. rewrite Hinfo. cbv beta iota zeta.
  rewrite Haudit. rewrite (mbind_await (send _)). cbn [run_from app].
  fold user_id flag comment user_level notice. rewrite Hnotice. cbv beta iota.
  rewrite mbind_sync. fold group_id. rewrite Happrove. cbv beta iota.
  rewrite (mbind_await (set_group_add_request _ _ _ _)). cbn [run_from app].
  fold verdict. rewrite Hverdict.
  reflexivity.
Qed.

Lemma join_request_is_answered_witness :
  (run Example.platform_ok
     (event_monitoring (H := ascii_runtime) Example.join_request Example.with_defaults)).2
  = [get_stranger_info 42;
     send (join_notice "Bob" "42" "f1" (Some 5) None);
     set_group_add_request "f1" "add" true "";
     send "已自动批准: "].
Proof.
  rewrite (join_request_is_answered (H := ascii_runtime) Example.platform_ok
             Example.join_request
             (list_to_map [("group_id", "1001"); ("user_id", "42"); ("post_type", "request");
                           ("request_type", "group"); ("sub_type", "add"); ("flag", "f1")])
             Example.with_defaults
             (should_approve (H := ascii_runtime) "1001" "42" None (Some 5)
                Example.with_defaults).2
             42 {| nickname := Some "Bob"; qqLevel := Some 5; level := None |} true "").
  - reflexivity.
  - reflexivity.
  - vm_compute. reflexivity.
  - reflexivity.
  - reflexivity.
  - reflexivity.
  - reflexivity.
  - reflexivity.
  - reflexivity.
  - reflexivity.
  - vm_compute. reflexivity.
  - reflexivity.
Defined.

(** X25. A join request is left unanswered when the requester cannot be
    looked up: if [int(user_id)] raises (a user id that is not a numeral,
    or none), [event_monitoring] raises before awaiting anything; if the
    lookup itself fails, it raises after that one call.  In both cases no
    notification is sent, the request is neither approved nor rejected,
    and [self] is as it was. *)
Theorem failed_lookup_leaves_request_open `{Runtime} (env : platform)
    (event : AiocqhttpMessageEvent) (raw : gmap string string) (self : JoinHandle)
    (e : exn) :
  let group_id := default "" (raw !! "group_id") in
  let user_id := default "" (raw !! "user_id") in
  raw_message event = Some raw ->
  truthy (GroupJoinData.get_switch (db self) group_id) = true ->
  raw !! "post_type" = Some "request" ->
  raw !! "request_type" = Some "group" ->
  raw !! "sub_type" = Some "add" ->
  (int_of_str user_id = Raise e ->
   run env (event_monitoring event self) = ((Raise e, self), []))
  ∧ (forall uid,
       int_of_str user_id = Ok uid ->
       env [] (get_stranger_info uid) = Raise e ->
       run env (event_monitoring event self) = ((Raise e, self), [get_stranger_info uid])).
Proof.
  intros group_id user_id Hraw Hon Hpost Hreq Hsub.
  rewrite (event_monitoring_request event raw self Hraw Hon Hpost Hreq Hsub).
  fold user_id. split.
  - intros ->. reflexivity.
  - intros uid -> Hfail. unfold run. cbn [run_from app]. by rewrite Hfail.
Qed.

Lemma failed_lookup_leaves_request_open_witness :
  run Example.platform_ok
    (event_monitoring (H := ascii_runtime)
       (Example.event_of [("group_id", "1001"); ("post_type", "request");
                          ("request_type", "group"); ("sub_type", "add")])
       Example.with_defaults)
  = ((Raise ValueError, Example.with_defaults), []).
Proof.
  apply (failed_lookup_leaves_request_open (H := ascii_runtime) Example.platform_ok
           (Example.event_of [("group_id", "1001"); ("post_type", "request");
                              ("request_type", "group"); ("sub_type", "add")])
           (list_to_map [("group_id", "1001"); ("post_type", "request");
                         ("request_type", "group"); ("sub_type", "add")])
           Example.with_defaults ValueError).
  - reflexivity.
  - vm_compute. reflexivity.
  - reflexivity.
  - reflexivity.
  - reflexivity.
  - reflexivity.
Defined.

(** ** event_monitoring: what it keeps *)

Section Touches.
Context `{Runtime}.
Import GroupJoinData.

Lemma touches_only_refl g self : store_ok (db self) -> touches_only g self self.
Proof. intros Hd. unfold touches_only. by split_and!. Qed.

Lemma touches_only_fail g self s f :
  touches_only g self s -> touches_only g self (with_fail f s).
Proof. intros Ht. exact Ht. Qed.

Lemma touches_only_set g key v self :
  store_ok (db self) ->
  is_Some (_cfg (db self) !! g) ->
  field_ok key v = true ->
  touches_only g self (with_db (set g key v (db self)) self).
Proof.
  intros Hd Hg Hv. split; [by apply store_ok_set|]. simpl.
  split; [|split; [|done]].
  - intros g'. rewrite cfg_set, (ensure_group_stored _ _ Hg).
    rewrite lookup_insert_is_Some.
    split; [intros [<- | [_ Hs]]; done | intros Hs; destruct (decide (g = g')); auto].
  - intros g' Hne. by apply get_set_other.
Qed.

(** [should_approve] on a stored group returns a verdict and touches that
    group only. *)
Lemma touches_only_should_approve g u c lvl self :
  store_ok (db self) ->
  is_Some (_cfg (db self) !! g) ->
  ∃ approve reason self',
    should_approve g u c lvl self = (Ok (approve, reason), self')
    ∧ touches_only g self self'.
Proof.
  intros Hd Hg.
  destruct (should_approve_cases self g u c lvl Hd)
    as (b1 & b2 & b3 & b5 & bl & n & H1 & H2 & H3 & H5 & Hbl & Hn).
  rewrite (should_approve_run self g u c lvl b1 b2 b3 b5 bl n) by done.
  pose proof (touches_only_refl g self Hd) as Hrefl.
  destruct b1; [by eauto|]. destruct b2; [by eauto|].
  destruct b3.
  { eexists _, _, _. split; [done|]. by apply touches_only_set. }
  cbv zeta. destruct (0 <? n); cbn [andb].
  - destruct (n <? _); [|destruct b5];
      (eexists _, _, _; split; [done|]; by apply touches_only_fail).
  - destruct b5; by eauto.
Qed.

End Touches.

Section MonitoringKeeps.
Context `{Runtime}.
Import GroupJoinData.

Lemma mbind_mret {A B} (a : A) (k : A -> M B) (self : JoinHandle) :
  mbind (mret a) k self = k a self.
Proof. reflexivity. Qed.

(** From the verdict on. *)
Lemma verdict_keeps g u c lvl flag self :
  store_ok (db self) ->
  is_Some (_cfg (db self) !! g) ->
  always (fun _ : call => True) (fun r => touches_only g self r.2)
    ((let! (approve, reason) := sync (should_approve g u c lvl) in
      let! _ := await (set_group_add_request flag "add" approve
                         (if negb approve then reason else "")) in
      await (send ("已自动" +:+ (if approve then "批准" else "驳回") +:+ ": " +:+ reason)))
       self).
Proof.
  intros Hd Hg.
  destruct (touches_only_should_approve g u c lvl self Hd Hg)
    as (approve & reason & self' & E & Ht).
  rewrite mbind_sync, E. cbv beta iota.
  rewrite (mbind_await (set_group_add_request _ _ _ _)).
  apply always_await; [done|]. intros [[]|e]; [|by apply always_done].
  apply always_await; [done|]. intros a. by apply always_done.
Qed.

(** The mute of a new member: whatever happens, [self] is as before. *)
Lemma ban_keeps group_id user_id duration self :
  always (fun c => ∃ g u, c = set_group_ban g u duration) (fun r => r = (Ok tt, self))
    (try_except (let! gid := sync (lift (int_of_str group_id)) in
                 let! uid := sync (lift (int_of_str user_id)) in
                 await (set_group_ban gid uid duration)) self).
Proof.
  apply (always_try_except _ (fun r => r.2 = self));
    [|intros r s' Hs; simpl in Hs; by subst].
  rewrite mbind_lift. destruct (int_of_str group_id) as [gid|e]; [|by apply always_done].
  rewrite mbind_lift. destruct (int_of_str user_id) as [uid|e]; [|by apply always_done].
  apply always_await; [by eexists _, _|]. intros a. by apply always_done.
Qed.

(** [event_monitoring] keeps [touches_only], on every platform. *)
Lemma event_monitoring_keeps event self :
  store_ok (db self) ->
  let group_id :=
    match raw_message event with
    | Some raw => default "" (raw !! "group_id")
    | None => ""
    end in
  always (fun _ : call => True) (fun r => touches_only group_id self r.2) (event_monitoring event self).
Proof.
  intros Hd group_id.
  pose proof (touches_only_refl group_id self Hd) as Hrefl.
  unfold event_monitoring. subst group_id.
  destruct (raw_message event) as [raw|]; [|by apply always_done].
  cbv zeta. set (group_id := default "" (raw !! "group_id")) in *.
  rewrite mbind_db_get.
  destruct (truthy (get_switch (db self) group_id)) eqn:Hon; cbn [negb];
    [|by apply always_done].
  pose proof (switch_on_is_stored _ _ Hon) as Hg.
  rewrite mbind_db_do, (ensure_group_stored _ _ Hg), with_db_same, mbind_jconf.
  set (user_id := default "" (raw !! "user_id")).
  match goal with |- always _ _ ((if ?b then _ else _) _) => destruct b end.
  { (* 进群申请事件 *)
    rewrite mbind_lift.
    destruct (int_of_str user_id) as [uid|e]; [|by apply always_done].
    rewrite (mbind_await (get_stranger_info _)).
    apply always_await; [done|]. intros [info|e]; [|by apply always_done].
    match goal with |- always _ _ (mbind _ ?k self) =>
      assert (always (fun _ : call => True) (fun r => touches_only group_id self r.2) (k tt self)) as Hk
        by (by apply verdict_keeps)
    end.
    destruct (admin_audit (jconf self)).
    - apply (always_mbind _ (fun r => r = (Ok tt, self))).
      + apply (always_mono _ _ _ _ _ (fun _ _ => I) (fun _ E => E)
                 (send_to_admins_always (admin_ids self) _ self)).
      + intros [] s' [= ->]. exact Hk.
      + intros e s' [=].
    - rewrite (mbind_await (send _)).
      apply always_await; [done|]. intros [[]|e]; [exact Hk|by apply always_done]. }
  match goal with |- always _ _ ((if ?b then _ else _) _) => destruct b end.
  { (* 主动退群事件 *)
    rewrite (mbind_await (get_nickname _)).
    apply always_await; [done|]. intros [nick|e]; [|by apply always_done].
    destruct (leave_block (jconf self)).
    - destruct (typed_block_ids (db self) group_id Hd) as [bl Hbl].
      unfold mbind at 1. rewrite mbind_db_get, Hbl.
      cbn [py_add_list]. rewrite mbind_lift. cbv beta iota.
      rewrite mbind_db_do. unfold mret. cbn [io_bind]. cbv beta iota. unfold await.
      apply always_await; [done|]. intros a. apply always_done.
      by apply touches_only_set.
    - rewrite mbind_mret.
      apply always_await; [done|]. intros a. by apply always_done. }
  match goal with |- always _ _ ((if ?b then _ else _) _) => destruct b end;
    [|by apply always_done].
  (* 进群欢迎、禁言 *)
  match goal with |- always _ _ (mbind _ ?k self) =>
    assert (always (fun _ : call => True) (fun r => touches_only group_id self r.2) (k tt self)) as Hk
  end.
  { destruct (0 <? ban_time (jconf self)); [|by apply always_done].
    apply (always_mono (fun c => ∃ g u, c = set_group_ban g u (ban_time (jconf self))) _
             (fun r => r = (Ok tt, self))); [done| by intros r ->|].
    apply ban_keeps. }
  destruct (negb (bool_decide (welcome_template (jconf self) = ""))).
  - unfold mbind at 1. rewrite (mbind_await (get_nickname _)). cbn [io_bind].
    apply always_await; [done|]. intros [nick|e]; [|by apply always_done].
    rewrite mbind_lift.
    destruct (str_format (welcome_template (jconf self)) nick) as [welcome|e];
      [|by apply always_done].
    cbn [io_bind]. unfold await. cbn [io_bind].
    apply always_await; [done|]. intros [[]|e]; [exact Hk|by apply always_done].
  - rewrite mbind_mret. exact Hk.
Qed.

End MonitoringKeeps.

(** X24. Whatever the event and whatever the platform answers,
    [event_monitoring] on a well-typed store touches the event's group
    only: afterwards the store is well typed, the same groups have a config
    (monitoring never creates one), every other group reads as before, and
    the plugin configuration and admin list are unchanged. *)
Theorem event_monitoring_touches_one_group `{Runtime} (env : platform)
    (event : AiocqhttpMessageEvent) (self : JoinHandle) :
  store_ok (db self) ->
  let group_id :=
    match raw_message event with
    | Some raw => default "" (raw !! "group_id")
    | None => ""
    end in
  touches_only group_id self (run env (event_monitoring event self)).1.2.
Proof.
  intros Hd group_id.
  exact (proj1 (always_run _ _ env _ (event_monitoring_keeps event self Hd))).
Qed.

Lemma event_monitoring_touches_one_group_witness :
  GroupJoinData.get
    (db (run Example.platform_ok
           (event_monitoring (H := ascii_runtime) Example.leave Example.with_blacklist)).1.2)
    "2002"
  = GroupJoinData.get (db Example.with_blacklist) "2002".
Proof.
  destruct (event_monitoring_touches_one_group (H := ascii_runtime) Example.platform_ok
              Example.leave Example.with_blacklist) as (_ & _ & Hothers & _).
  - by_evaluation.
  - apply Hothers. discriminate.
Defined.

(** X26. The welcome of a new member with no welcome text configured: the
    only call [event_monitoring] can make is the mute, with the configured
    duration, and it ends normally with [self] as it was whether the mute
    succeeds, fails, or cannot be asked for (ids that are not numerals).
    When the new member is the bot itself, or the duration is 0 or less,
    it calls nothing. *)
Theorem mute_is_best_effort `{Runtime} (env : platform) (event : AiocqhttpMessageEvent)
    (raw : gmap string string) (self : JoinHandle) :
  let group_id := default "" (raw !! "group_id") in
  let user_id := default "" (raw !! "user_id") in
  let result := run env (event_monitoring event self) in
  raw_message event = Some raw ->
  truthy (GroupJoinData.get_switch (db self) group_id) = true ->
  raw !! "post_type" = Some "notice" ->
  raw !! "notice_type" = Some "group_increase" ->
  welcome_template (jconf self) = "" ->
  result.1 = (Ok tt, self)
  ∧ Forall (fun c => ∃ g u, c = set_group_ban g u (ban_time (jconf self))) result.2
  ∧ (user_id = get_self_id event ∨ ban_time (jconf self) <= 0 -> result.2 = []).
Proof.
  intros group_id user_id result Hraw Hon Hpost Hnotice Hwelcome.
  assert (event_monitoring event self
          = if negb (bool_decide (user_id = get_self_id event)) && (0 <? ban_time (jconf self))
            then try_except (let! gid := sync (lift (int_of_str group_id)) in
                             let! uid := sync (lift (int_of_str user_id)) in
                             await (set_group_ban gid uid (ban_time (jconf self)))) self
            else Done (Ok tt, self)) as E.
  { unfold event_monitoring. rewrite Hraw. cbv zeta.
    rewrite mbind_db_get. fold group_id. rewrite Hon. cbn [negb].
    rewrite mbind_db_do.
    rewrite (ensure_group_stored _ _ (switch_on_is_stored _ _ Hon)), with_db_same.
    rewrite mbind_jconf.
    rewrite (bool_decide_eq_false_2 (raw !! "post_type" = Some "request"))
      by (rewrite Hpost; discriminate).
    rewrite (bool_decide_eq_false_2 (raw !! "notice_type" = Some "group_decrease"))
      by (rewrite Hnotice; discriminate).
    rewrite (bool_decide_eq_true_2 (raw !! "notice_type" = Some "group_increase"))
      by done.
    rewrite andb_false_r. cbn [andb]. fold user_id.
    destruct (bool_decide (user_id = get_self_id event)); cbn [negb andb]; [done|].
    rewrite (bool_decide_eq_true_2 (welcome_template (jconf self) = "")) by done.
    cbn [negb]. rewrite mbind_mret.
    by destruct (0 <? ban_time (jconf self)). }
  unfold result. rewrite E. clear E.
  destruct (negb (bool_decide (user_id = get_self_id event)) && (0 <? ban_time (jconf self)))
    eqn:Hgo.
  - destruct (always_run _ _ env _
                (ban_keeps group_id user_id (ban_time (jconf self)) self)) as [Hr Hc].
    split; [exact Hr|]. split; [exact Hc|].
    apply andb_prop in Hgo as [Hbot Hban].
    intros [Heq | Hle]; [|lia].
    by rewrite (bool_decide_eq_true_2 _ Heq) in Hbot.
  - by repeat split.
Qed.

Lemma mute_is_best_effort_witness :
  let quiet : join_config :=
    {| default_switch := true; default_min_level := 0; default_max_time := 2;
       admin_audit := false; leave_notify := true; leave_block := true;
       welcome_template := ""; ban_time := 60 |} in
  let self :=
    Example.on_db (GroupJoinData.ensure_group "1001")
      (JoinHandle__init__ quiet Missing Written []) in
  let joined :=
    Example.event_of [("group_id", "1001"); ("user_id", "42"); ("post_type", "notice");
                      ("notice_type", "group_increase")] in
  run (fun _ _ => Raise ActionFailed) (event_monitoring (H := ascii_runtime) joined self)
  = ((Ok tt, self), [set_group_ban 1001 42 60]).
Proof.
  intros quiet self joined.
  destruct (mute_is_best_effort (H := ascii_runtime) (fun _ _ => Raise ActionFailed) joined
              (list_to_map [("group_id", "1001"); ("user_id", "42");
                            ("post_type", "notice"); ("notice_type", "group_increase")])
              self) as (Hr & _ & _).
  - reflexivity.
  - vm_compute. reflexivity.
  - reflexivity.
  - reflexivity.
  - reflexivity.
  - vm_compute. reflexivity.
Defined.
